(** * The Ethereum side of the dual node: relay and settlement

    A shallow embedding of the Ethereum sub node of the dual node
    (the [Eth] struct with [SubmitTx], [ComputeTxMetadata],
    [submitEthReleaseTx], [syncHead], [handleBlock],
    [extractEthTxSummary], [callKardiaMasterGetEthToSend],
    [mockBlockGenerationRoutine], the bootstrap loop and the cache sizes of
    [NewEth]), of [CreateEthReleaseAmountTx] from dualnode/eth/utils.go and
    of [containsInGenesis] from tool/tx_generator_test.go.

    Every method runs in a small monad that threads the state of the
    outside world (both chains, both transaction pools, the event pool),
    collects the observable trace (log records and the calls that hand
    something to a pool) and can end in a Go panic. *)

From Stdlib Require Import List String ZArith NArith Bool Lia Permutation.
From ExtLib Require Import Structures.Monad.
Import ListNotations MonadNotation.
Open Scope string_scope.
Open Scope list_scope.
Local Open Scope monad_scope.

Set Implicit Arguments.

(** ** Plain data *)

(** [common.Address] and go-ethereum's [common.Address]: twenty bytes,
    read as a number. *)
Definition Address := N.

(** [common.Hash] and go-ethereum's [common.Hash]: thirty-two bytes, read
    as a number; [common.BytesToHash(h[:])] on a thirty-two byte hash
    keeps every byte. *)
Definition Hash := N.
Definition BytesToHash (h : Hash) : Hash := h.

(** A Go [error] value; [option Error] is an [error] that may be nil. *)
Definition Error := string.

Inductive Result (A : Type) : Type :=
| Ok (a : A)
| Err (e : Error).
Arguments Ok {A} a.
Arguments Err {A} e.

(** How a call ends: it returns, or the goroutine panics. *)
Inductive Outcome (A : Type) : Type :=
| Ret (a : A)
| Panic (msg : string).
Arguments Ret {A} a.
Arguments Panic {A} msg.

(** [new(big.Int).SetBytes(ret)]: the bytes as a big-endian unsigned
    number. *)
Definition SetBytes (ret : list Byte.byte) : Z :=
  fold_left (fun acc b => (acc * 256 + Z.of_N (Byte.to_N b))%Z) ret 0%Z.

(** The parts of go-ethereum's [types.Transaction] that the node reads:
    [To()], [Value()], [Data()] and [Hash()]. *)
Record Transaction := {
  tx_To : option Address;
  tx_Value : Z;
  tx_Data : list Byte.byte;
  tx_Hash : Hash
}.

(** go-ethereum's [types.Block]: the header (its number is enough here,
    it is only logged) and the transactions in block order. *)
Record Block := {
  Header : N;
  Transactions : list Transaction
}.

(** Modelled from the spec: the declarations of the [types] package
    ([EventSummary], [EventData], [TxMetadata], [DualEvent] and
    [NewDualEvent]) are not among the sources; the fields are the ones the
    node reads and writes, laid out as the Cross-Chain Event of the data
    model. *)
Record EventSummary := {
  TxMethod : string;
  TxValue : Z
}.

Record EventData := {
  FromExternal : bool;
  TxSource : string;
  TxHash : Hash;
  Data : EventSummary
}.

Record TxMetadata := {
  md_TxHash : Hash;
  md_Target : string
}.

Record DualEvent := {
  Nonce : N;
  TriggeredEvent : EventData;
  PendingTxMetadata : option TxMetadata
}.

Definition NewDualEvent (nonce : N) (fromExternal : bool) (txSource : string)
    (txHash : Hash) (summary : EventSummary) : DualEvent :=
  {| Nonce := nonce;
     TriggeredEvent := {| FromExternal := fromExternal; TxSource := txSource;
                          TxHash := txHash; Data := summary |};
     PendingTxMetadata := None |}.

Definition setPendingTxMetadata (ev : DualEvent) (md : option TxMetadata) : DualEvent :=
  {| Nonce := Nonce ev; TriggeredEvent := TriggeredEvent ev; PendingTxMetadata := md |}.

(** [blockchain.BlockChain], Kardia's main chain: [State()]. *)
Record BlockChain (World StateDB : Type) := {
  bc_State : World -> Result StateDB
}.

(** ** What the node takes from other packages

    Opaque data of the two chains, the package-level functions of
    [common], [crypto], [hex], [kardia] and the constants of [dev],
    [ethsmc], [dualbc] and [types].  None of them is defined in the files
    at hand, so they are parameters of the development. *)
Class Externals := {
  World : Type;
  EthStateDB : Type;
  StateDB : Type;
  KaiTx : Type;
  PrivateKey : Type;
  eth_GetNonce : EthStateDB -> Address -> N;
  GetNonce : StateDB -> Address -> N;
  HexToAddress : string -> Address;
  DecodeString : string -> list Byte.byte;
  ToECDSAUnsafe : list Byte.byte -> PrivateKey;
  GenesisAddrKeys : string -> string;
  ETHEREUM : string;
  EthAccountSign : string;
  MockSmartContractCallSenderAccount : string;
  DualStateAddressHex : string;
  (* The two string arguments of the six-argument
     [CreateEthReleaseAmountTx] that its callers in the node file, written
     against four arguments, do not spell out. *)
  releaseContractAddr : string;
  releaseReceiveAddr : string;
  CallStaticKardiaMasterSmc :
    Address -> Address -> BlockChain World StateDB -> list Byte.byte -> StateDB ->
    Result (list Byte.byte);
  CreateKardiaRemoveAmountTx : PrivateKey -> StateDB -> Z -> string -> KaiTx
}.

Section Node.
Context {X : Externals}.

(** ** Collaborator objects held by the node *)

(** The running go-ethereum node, seen through its full-node service:
    [ethBlockChain().State()] and [ethTxPool().AddLocal(tx)].  The pool
    receives a pointer, which may be nil. *)
Record Node := {
  eth_State : World -> Result EthStateDB;
  eth_AddLocal : option Transaction -> World -> option Error * World
}.

(** [ethsmc.EthSmc]: the contract-interface descriptor. *)
Record EthSmc := {
  InputMethodName : list Byte.byte -> Result string;
  CreateEthReleaseTx : string -> Z -> string -> N -> Transaction
}.

(** [dualbc.DualBlockChain]: [State()]. *)
Record DualBlockChain := {
  dual_State : World -> Result StateDB
}.

(** [dualbc.EventPool]: [AddEvent]. *)
Record EventPool := {
  pool_AddEvent : DualEvent -> World -> option Error * World
}.

(** [dualbc.BlockChainAdapter], the internal chain. *)
Record BlockChainAdapter := {
  adapter_ComputeTxMetadata : EventData -> World -> option TxMetadata * World
}.

(** [blockchain.TxPool], Kardia's transaction pool: [AddLocal]. *)
Record TxPool := {
  kai_AddLocal : KaiTx -> World -> option Error * World
}.

(** [abi.ABI]: [Pack] of a method without arguments. *)
Record ABI := {
  Pack : string -> Result (list Byte.byte)
}.

Record EthConfig := {
  ContractAddress : string;
  LightNode : bool
}.

(** The [Eth] struct.  [internalChain] is nil until
    [RegisterInternalChain] runs. *)
Record Eth := {
  geth : Node;
  config : EthConfig;
  ethSmc : EthSmc;
  dualChain : DualBlockChain;
  eventPool : EventPool;
  internalChain : option BlockChainAdapter;
  kardiaChain : BlockChain World StateDB;
  txPool : TxPool;
  smcABI : ABI;
  smcAddress : Address
}.

(** ** Observable trace and the monad *)

Inductive Level := Info | Error_.

Inductive Event :=
| Log (lvl : Level) (msg : string)
| EthAddLocal (tx : option Transaction)
| KaiAddLocal (tx : KaiTx)
| QueryTxMetadata (d : EventData)
| AddEvent (ev : DualEvent).

Definition Trace := list Event.

Definition M (A : Type) : Type := World -> Outcome A * World * Trace.

Definition ret_M {A : Type} (a : A) : M A := fun w => (Ret a, w, []).

Definition bind_M {A B : Type} (m : M A) (f : A -> M B) : M B :=
  fun w =>
    match m w with
    | (Ret a, w1, t1) =>
        match f a w1 with
        | (r, w2, t2) => (r, w2, t1 ++ t2)
        end
    | (Panic msg, w1, t1) => (Panic msg, w1, t1)
    end.

#[export] Instance Monad_M : Monad M := {| ret := @ret_M; bind := @bind_M |}.

Definition log (lvl : Level) (msg : string) : M unit :=
  fun w => (Ret tt, w, [Log lvl msg]).

Definition panic {A : Type} (msg : string) : M A :=
  fun w => (Panic msg, w, []).

(** A read of the outside world. *)
Definition read {A : Type} (f : World -> A) : M A :=
  fun w => (Ret (f w), w, []).

(** A call that changes the outside world, recorded as [e]. *)
Definition call {A : Type} (e : Event) (f : World -> A * World) : M A :=
  fun w => match f w with (a, w1) => (Ret a, w1, [e]) end.

Definition outcome {A : Type} (r : Outcome A * World * Trace) : Outcome A := fst (fst r).
Definition world {A : Type} (r : Outcome A * World * Trace) : World := snd (fst r).
Definition trace {A : Type} (r : Outcome A * World * Trace) : Trace := snd r.

(** What a trace handed to the pools. *)
Definition ethSubmissions (t : Trace) : list (option Transaction) :=
  flat_map (fun e => match e with EthAddLocal tx => [tx] | _ => [] end) t.

Definition kaiSubmissions (t : Trace) : list KaiTx :=
  flat_map (fun e => match e with KaiAddLocal tx => [tx] | _ => [] end) t.

Definition poolEvents (t : Trace) : list DualEvent :=
  flat_map (fun e => match e with AddEvent ev => [ev] | _ => [] end) t.

Definition logRecords (t : Trace) : list (Level * string) :=
  flat_map (fun e => match e with Log l m => [(l, m)] | _ => [] end) t.

Definition errorRecords (t : Trace) : list string :=
  flat_map (fun e => match e with Log Error_ m => [m] | _ => [] end) t.

(** ** dualnode/eth/utils.go *)

Definition NonceZeroFromContract : Error := "Contract returns nonce 0".

Definition CreateEthReleaseAmountTx (contractAddr : string) (recipientAddr : Address)
    (receiveAddr : string) (statedb : EthStateDB) (quantity : Z) (smc : EthSmc)
    : M (option Transaction * option Error) :=
  let nonce := eth_GetNonce statedb recipientAddr in
  if (nonce =? 0)%N then
    log Error_ "Eth state return 0 for nonce of contract address" ;;
    ret (None, Some NonceZeroFromContract)
  else
    let tx := CreateEthReleaseTx smc contractAddr quantity receiveAddr nonce in
    log Info "Create Eth tx to release" ;;
    ret (Some tx, None).

(** The call as the node file writes it: the account whose nonce is read
    is the signing account, and only the transaction is bound. *)
Definition buildRelease (n : Eth) (contractAddr : Address) (statedb : EthStateDB)
    (value : Z) : M (option Transaction) :=
  r <- CreateEthReleaseAmountTx releaseContractAddr contractAddr releaseReceiveAddr
         statedb value (ethSmc n) ;;
  ret (fst r).

(** ** The node file *)

Definition ErrAddEthTx : Error := "Fail to add tx to Ether's TxPool".

Definition callKardiaMasterGetEthToSend (n : Eth) (from : Address) (statedb : StateDB)
    : M Z :=
  match Pack (smcABI n) "getEthToSend" with
  | Err _ =>
      log Error_ "Fail to pack Kardia smc getEthToSend" ;;
      ret 0%Z
  | Ok getEthToSend =>
      match CallStaticKardiaMasterSmc from (smcAddress n) (kardiaChain n)
              getEthToSend statedb with
      | Err _ =>
          log Error_ "Error calling master exchange contract" ;;
          ret 0%Z
      | Ok ret_ => ret (SetBytes ret_)
      end
  end.

Definition submitEthReleaseTx (n : Eth) (value : Z) : M unit :=
  st <- read (eth_State (geth n)) ;;
  match st with
  | Err _ => log Error_ "Fail to get Ethereum state to create release tx"
  | Ok statedb =>
      let contractAddr := HexToAddress EthAccountSign in
      tx <- buildRelease n contractAddr statedb value ;;
      match tx with
      | None => log Error_ "Fail to create Eth's tx"
      | Some _ => ret tt
      end ;;
      err <- call (EthAddLocal tx) (eth_AddLocal (geth n) tx) ;;
      match err with
      | Some _ => log Error_ "Fail to add Ether tx"
      | None =>
          (* the log argument is tx.Hash().Hex(): Hash reads the
             transaction behind the pointer *)
          match tx with
          | None => panic "invalid memory address or nil pointer dereference"
          | Some _ => log Info "Add Eth release tx successfully"
          end
      end
  end.

Definition SubmitTx (n : Eth) (event : EventData) : M (option Error) :=
  st <- read (bc_State (kardiaChain n)) ;;
  match st with
  | Err err =>
      log Error_ "Fail to get Kardia state" ;;
      ret (Some err)
  | Ok statedb =>
      let senderAddr := HexToAddress MockSmartContractCallSenderAccount in
      ethSendValue <- callKardiaMasterGetEthToSend n senderAddr statedb ;;
      log Info "Kardia smc calls getEthToSend" ;;
      (* ethSendValue != nil && ethSendValue.Cmp(big.NewInt(0)) != 0: the
         read above never returns a nil pointer *)
      (if negb (ethSendValue =? 0)%Z then
         submitEthReleaseTx n ethSendValue ;;
         let gAccount := "0xe94517a4f6f45e80CbAaFfBb0b845F4c0FDD7547" in
         let addrKeyBytes := DecodeString (GenesisAddrKeys gAccount) in
         let addrKey := ToECDSAUnsafe addrKeyBytes in
         let tx := CreateKardiaRemoveAmountTx addrKey statedb ethSendValue ETHEREUM in
         err <- call (KaiAddLocal tx) (kai_AddLocal (txPool n) tx) ;;
         match err with
         | Some _ => log Error_ "Fail to add Kardia tx to removeEth"
         | None => log Info "Submitted Eth's removeEth tx to its tx pool successfully"
         end
       else ret tt) ;;
      ret None
  end.

Definition ComputeTxMetadata (n : Eth) (event : EventData) : M (option TxMetadata) :=
  st <- read (eth_State (geth n)) ;;
  match st with
  | Err _ =>
      log Error_ "Fail to get Ethereum state to create release tx" ;;
      ret None
  | Ok statedb =>
      let contractAddr := HexToAddress EthAccountSign in
      ethTx <- buildRelease n contractAddr statedb (TxValue (Data event)) ;;
      (* ethTx.Hash() reads the transaction behind the pointer *)
      match ethTx with
      | None => panic "invalid memory address or nil pointer dereference"
      | Some tx => ret (Some {| md_TxHash := tx_Hash tx; md_Target := ETHEREUM |})
      end
  end.

Definition RegisterInternalChain (n : Eth) (ic : BlockChainAdapter) : Eth :=
  {| geth := geth n; config := config n; ethSmc := ethSmc n;
     dualChain := dualChain n; eventPool := eventPool n;
     internalChain := Some ic;
     kardiaChain := kardiaChain n; txPool := txPool n;
     smcABI := smcABI n; smcAddress := smcAddress n |}.

Definition extractEthTxSummary (n : Eth) (tx : Transaction) : M (Result EventSummary) :=
  let input := tx_Data tx in
  match InputMethodName (ethSmc n) input with
  | Err err =>
      log Error_ "Error when unpack Eth smc input" ;;
      ret (Err err)
  | Ok method => ret (Ok {| TxMethod := method; TxValue := tx_Value tx |})
  end.

(** [tx.To() != nil && *tx.To() == contractAddr] *)
Definition addressedTo (contractAddr : Address) (tx : Transaction) : bool :=
  match tx_To tx with
  | Some to => (to =? contractAddr)%N
  | None => false
  end.

(** How one turn of the loop over the transactions ends: the loop goes on
    to the next transaction, or [handleBlock] returns. *)
Inductive Flow := Next | Return.

(** The body of the loop of [handleBlock]. *)
Definition handleTx (n : Eth) (ic : BlockChainAdapter) (contractAddr : Address)
    (tx : Transaction) : M Flow :=
  if addressedTo contractAddr tx then
    log Info "New Eth's tx detected on smart contract" ;;
    s <- extractEthTxSummary n tx ;;
    match s with
    | Err _ =>
        log Error_ "Error when extracting Eth's tx summary." ;;
        panic "Not yet implemented!"
    | Ok eventSummary =>
        st <- read (dual_State (dualChain n)) ;;
        match st with
        | Err _ =>
            log Error_ "Fail to get Kardia state" ;;
            ret Return
        | Ok dualStateDB =>
            let nonce := GetNonce dualStateDB (HexToAddress DualStateAddressHex) in
            let ethTxHash := tx_Hash tx in
            let txHash := BytesToHash ethTxHash in
            let dualEvent := NewDualEvent nonce true ETHEREUM txHash eventSummary in
            md <- call (QueryTxMetadata (TriggeredEvent dualEvent))
                    (adapter_ComputeTxMetadata ic (TriggeredEvent dualEvent)) ;;
            let dualEvent := setPendingTxMetadata dualEvent md in
            log Info "Create DualEvent for Eth's Tx" ;;
            err <- call (AddEvent dualEvent) (pool_AddEvent (eventPool n) dualEvent) ;;
            match err with
            | Some _ =>
                log Error_ "Fail to add dual's event" ;;
                ret Return
            | None =>
                log Info "Submitted Eth's DualEvent to event pool successfully" ;;
                ret Next
            end
        end
    end
  else ret Next.

(** [for _, tx := range block.Transactions() { ... }] *)
Fixpoint scanTransactions (n : Eth) (ic : BlockChainAdapter) (contractAddr : Address)
    (txns : list Transaction) : M unit :=
  match txns with
  | [] => ret tt
  | tx :: rest =>
      f <- handleTx n ic contractAddr tx ;;
      match f with
      | Next => scanTransactions n ic contractAddr rest
      | Return => ret tt
      end
  end.

Definition handleBlock (n : Eth) (block : option Block) : M unit :=
  match internalChain n with
  | None => panic "Internal chain needs not to be nil."
  | Some ic =>
      match block with
      | None => log Info "handleBlock with nil block"
      | Some b =>
          log Info "handleBlock..." ;;
          let contractAddr := HexToAddress (ContractAddress (config n)) in
          scanTransactions n ic contractAddr (Transactions b)
      end
  end.

(** ** Vocabulary of the statements *)

(** The account whose nonce the release build reads. *)
Definition signer : Address := HexToAddress EthAccountSign.

(** The caller of the view method in [SubmitTx]. *)
Definition sender : Address := HexToAddress MockSmartContractCallSenderAccount.

(** The debit transaction that [SubmitTx] builds for [v]. *)
Definition debitTx (statedb : StateDB) (v : Z) : KaiTx :=
  CreateKardiaRemoveAmountTx
    (ToECDSAUnsafe (DecodeString
       (GenesisAddrKeys "0xe94517a4f6f45e80CbAaFfBb0b845F4c0FDD7547")))
    statedb v ETHEREUM.

(** The release transaction for [v] signed with [nonce]. *)
Definition releaseTx (n : Eth) (v : Z) (nonce : N) : Transaction :=
  CreateEthReleaseTx (ethSmc n) releaseContractAddr v releaseReceiveAddr nonce.

(** Packing the view call or the static call itself fails. *)
Definition pendingReadFails (n : Eth) (from : Address) (statedb : StateDB) : bool :=
  match Pack (smcABI n) "getEthToSend" with
  | Err _ => true
  | Ok input =>
      match CallStaticKardiaMasterSmc from (smcAddress n) (kardiaChain n) input statedb with
      | Err _ => true
      | Ok _ => false
      end
  end.

(** The view call succeeds and its answer decodes to zero. *)
Definition pendingReadsZero (n : Eth) (from : Address) (statedb : StateDB) : bool :=
  match Pack (smcABI n) "getEthToSend" with
  | Err _ => false
  | Ok input =>
      match CallStaticKardiaMasterSmc from (smcAddress n) (kardiaChain n) input statedb with
      | Err _ => false
      | Ok ret_ => (SetBytes ret_ =? 0)%Z
      end
  end.

(** The summaries of the events that a trace handed to the Event Pool, in
    the order they were handed. *)
Definition summaries (t : Trace) : list EventSummary :=
  map (fun ev => Data (TriggeredEvent ev)) (poolEvents t).

(** The summary of one transaction: the decoded method name and the
    native value, when the input decodes. *)
Definition summaryOf (n : Eth) (tx : Transaction) : option EventSummary :=
  match InputMethodName (ethSmc n) (tx_Data tx) with
  | Ok method => Some {| TxMethod := method; TxValue := tx_Value tx |}
  | Err _ => None
  end.


(** The event that [handleBlock] assembles for [tx] from the dual state
    [dualStateDB] and the metadata [md] of the internal chain. *)
Definition eventFor (tx : Transaction) (eventSummary : EventSummary)
    (dualStateDB : StateDB) (md : option TxMetadata) : DualEvent :=
  setPendingTxMetadata
    (NewDualEvent (GetNonce dualStateDB (HexToAddress DualStateAddressHex)) true
       ETHEREUM (BytesToHash (tx_Hash tx)) eventSummary)
    md.

End Node.

(** ** syncHead: from the head feed to the block handler

    The goroutines of [syncHead] as a labelled transition system over the
    two channels.  [chainHeadEventCh] is the subscription channel (buffer
    of [headChannelSize]), [blockCh] the hand-off channel (buffer of one).
    A step that is not enabled is the goroutine blocked on its channel
    operation.  This is [syncHead] past its first test, with the full-node
    service at hand; the handler loop keeps its own [LightNode] test. *)
Module Sync.

Definition headChannelSize : nat := 5.
Definition blockChSize : nat := 1.

Record State := {
  chainHeadEventCh : list (option Block);
  blockCh : list (option Block);
  listening : bool;
  delivered : list (option Block);
  handled : list (option Block)
}.

Definition init : State :=
  {| chainHeadEventCh := []; blockCh := []; listening := true;
     delivered := []; handled := [] |}.

Inductive Label :=
| Feed (head : option Block)      (* the chain sends on chainHeadEventCh *)
| Listen                          (* case head := <-chainHeadEventCh *)
| SubErr                          (* case <-headSubCh.Err() *)
| Generate (block : option Block) (* mockBlockGenerationRoutine: blockCh <- block *)
| Handle.                         (* case block := <-blockCh *)

(** The inner select of the listener: [case blockCh <- head.Block] when
    the buffer has room, [default] otherwise. *)
Definition offer (b : option Block) (ch : list (option Block)) : list (option Block) :=
  if (List.length ch <? blockChSize)%nat then ch ++ [b] else ch.

Definition step (lightNode : bool) (l : Label) (s : State) : option State :=
  match l with
  | Feed head =>
      if (List.length (chainHeadEventCh s) <? headChannelSize)%nat then
        Some {| chainHeadEventCh := chainHeadEventCh s ++ [head];
                blockCh := blockCh s; listening := listening s;
                delivered := delivered s; handled := handled s |}
      else None
  | Listen =>
      if listening s then
        match chainHeadEventCh s with
        | [] => None
        | head :: q =>
            Some {| chainHeadEventCh := q;
                    blockCh := offer head (blockCh s); listening := true;
                    delivered := delivered s; handled := handled s |}
        end
      else None
  | SubErr =>
      if listening s then
        Some {| chainHeadEventCh := chainHeadEventCh s;
                blockCh := blockCh s; listening := false;
                delivered := delivered s; handled := handled s |}
      else None
  | Generate block =>
      if (List.length (blockCh s) <? blockChSize)%nat then
        Some {| chainHeadEventCh := chainHeadEventCh s;
                blockCh := blockCh s ++ [block]; listening := listening s;
                delivered := delivered s; handled := handled s |}
      else None
  | Handle =>
      match blockCh s with
      | [] => None
      | block :: q =>
          Some {| chainHeadEventCh := chainHeadEventCh s;
                  blockCh := q; listening := listening s;
                  delivered := delivered s ++ [block];
                  handled := if negb lightNode then handled s ++ [block]
                             else handled s |}
      end
  end.

(** A schedule, run from a state; [None] when one of its steps is not
    enabled where it stands. *)
Fixpoint run (lightNode : bool) (ls : list Label) (s : State) : option State :=
  match ls with
  | [] => Some s
  | l :: rest =>
      match step lightNode l s with
      | Some s1 => run lightNode rest s1
      | None => None
      end
  end.

Definition isHandle (l : Label) : bool :=
  match l with Handle => true | _ => false end.

End Sync.

(** ** A small concrete world

    Both chains, the three pools and the contract interface with the
    switches a scenario needs: which reads fail, what the nonce and the
    pending amount are, which pool refuses. *)
Module Demo.

Record DemoWorld := {
  ethStateFails : bool;
  signerNonce : N;
  ethPoolRefuses : bool;
  kaiStateFails : bool;
  pendingRet : Result (list Byte.byte);
  kaiPoolRefuses : bool;
  dualStateFails : bool;
  eventPoolRefuses : bool;
  ethPool : list (option Transaction);
  kaiPool : list Z;
  events : list DualEvent
}.

Definition withEthPool (w : DemoWorld) (p : list (option Transaction)) : DemoWorld :=
  {| ethStateFails := ethStateFails w; signerNonce := signerNonce w;
     ethPoolRefuses := ethPoolRefuses w; kaiStateFails := kaiStateFails w;
     pendingRet := pendingRet w; kaiPoolRefuses := kaiPoolRefuses w;
     dualStateFails := dualStateFails w; eventPoolRefuses := eventPoolRefuses w;
     ethPool := p; kaiPool := kaiPool w; events := events w |}.

Definition withKaiPool (w : DemoWorld) (p : list Z) : DemoWorld :=
  {| ethStateFails := ethStateFails w; signerNonce := signerNonce w;
     ethPoolRefuses := ethPoolRefuses w; kaiStateFails := kaiStateFails w;
     pendingRet := pendingRet w; kaiPoolRefuses := kaiPoolRefuses w;
     dualStateFails := dualStateFails w; eventPoolRefuses := eventPoolRefuses w;
     ethPool := ethPool w; kaiPool := p; events := events w |}.

Definition withEvents (w : DemoWorld) (p : list DualEvent) : DemoWorld :=
  {| ethStateFails := ethStateFails w; signerNonce := signerNonce w;
     ethPoolRefuses := ethPoolRefuses w; kaiStateFails := kaiStateFails w;
     pendingRet := pendingRet w; kaiPoolRefuses := kaiPoolRefuses w;
     dualStateFails := dualStateFails w; eventPoolRefuses := eventPoolRefuses w;
     ethPool := ethPool w; kaiPool := kaiPool w; events := p |}.

(** The state of the Kardia chain as a read returns it: the nonce of every
    account and what the master contract answers to getEthToSend. *)
Record DemoStateDB := {
  db_nonce : N;
  db_pending : Result (list Byte.byte)
}.

#[export] Instance demo : Externals := {|
  World := DemoWorld;
  EthStateDB := N;
  StateDB := DemoStateDB;
  KaiTx := Z;
  PrivateKey := list Byte.byte;
  eth_GetNonce := fun st _ => st;
  GetNonce := fun st _ => db_nonce st;
  HexToAddress := fun s => N.of_nat (String.length s);
  DecodeString := fun s => list_byte_of_string s;
  ToECDSAUnsafe := fun b => b;
  GenesisAddrKeys := fun a => a;
  ETHEREUM := "ETH";
  EthAccountSign := "0xsign";
  MockSmartContractCallSenderAccount := "0xsender";
  DualStateAddressHex := "0xdualstate";
  releaseContractAddr := "0xrelease";
  releaseReceiveAddr := "0xreceive";
  CallStaticKardiaMasterSmc := fun _ _ _ _ st => db_pending st;
  CreateKardiaRemoveAmountTx := fun _ _ v _ => v
|}.

Definition demoGeth : @Node demo := {|
  eth_State := fun w =>
    if ethStateFails w then Err "no Ethereum state" else Ok (signerNonce w);
  eth_AddLocal := fun tx w =>
    if ethPoolRefuses w then (Some ErrAddEthTx, w)
    else (None, withEthPool w (ethPool w ++ [tx]))
|}.

(** The release transaction pays [quantity] to the bridge contract, whose
    address is the eight-character string of [demoConfig]. *)
Definition demoSmc : EthSmc := {|
  InputMethodName := fun input =>
    match input with
    | [] => Err "no method id"
    | _ => Ok (string_of_list_byte input)
    end;
  CreateEthReleaseTx := fun _ quantity _ nonce =>
    {| tx_To := Some 8%N; tx_Value := quantity; tx_Data := []; tx_Hash := nonce |}
|}.

Definition demoAdapter : @BlockChainAdapter demo := {|
  adapter_ComputeTxMetadata := fun d w =>
    (Some {| md_TxHash := TxHash d; md_Target := "KAI" |}, w)
|}.

Definition demoConfig : EthConfig :=
  {| ContractAddress := "0xbridge"; LightNode := false |}.

Definition unregistered : @Eth demo := {|
  geth := demoGeth;
  config := demoConfig;
  ethSmc := demoSmc;
  dualChain := {| dual_State := fun w =>
                    if dualStateFails w then Err "no dual state"
                    else Ok {| db_nonce := N.of_nat (List.length (events w));
                               db_pending := pendingRet w |} |};
  eventPool := {| pool_AddEvent := fun ev w =>
                    if eventPoolRefuses w then (Some "nonce too low", w)
                    else (None, withEvents w (events w ++ [ev])) |};
  internalChain := None;
  kardiaChain := {| bc_State := fun w =>
                      if kaiStateFails w then Err "no Kardia state"
                      else Ok {| db_nonce := 0%N; db_pending := pendingRet w |} |};
  txPool := {| kai_AddLocal := fun tx w =>
                 if kaiPoolRefuses w then (Some "pool is full", w)
                 else (None, withKaiPool w (kaiPool w ++ [tx])) |};
  smcABI := {| Pack := fun name => Ok (list_byte_of_string name) |};
  smcAddress := 77%N
|}.

Definition node : @Eth demo := RegisterInternalChain unregistered demoAdapter.

(** 500 as the two bytes 0x01 0xf4. *)
Definition bytes500 : list Byte.byte := [Byte.x01; Byte.xf4].

(** Everything works: signing nonce 7, 500 pending. *)
Definition calm : DemoWorld := {|
  ethStateFails := false; signerNonce := 7%N; ethPoolRefuses := false;
  kaiStateFails := false; pendingRet := Ok bytes500; kaiPoolRefuses := false;
  dualStateFails := false; eventPoolRefuses := false;
  ethPool := []; kaiPool := []; events := []
|}.


Definition setSignerNonce (w : DemoWorld) (k : N) : DemoWorld :=
  {| ethStateFails := ethStateFails w; signerNonce := k;
     ethPoolRefuses := ethPoolRefuses w; kaiStateFails := kaiStateFails w;
     pendingRet := pendingRet w; kaiPoolRefuses := kaiPoolRefuses w;
     dualStateFails := dualStateFails w; eventPoolRefuses := eventPoolRefuses w;
     ethPool := ethPool w; kaiPool := kaiPool w; events := events w |}.

Definition setKaiStateFails (w : DemoWorld) : DemoWorld :=
  {| ethStateFails := ethStateFails w; signerNonce := signerNonce w;
     ethPoolRefuses := ethPoolRefuses w; kaiStateFails := true;
     pendingRet := pendingRet w; kaiPoolRefuses := kaiPoolRefuses w;
     dualStateFails := dualStateFails w; eventPoolRefuses := eventPoolRefuses w;
     ethPool := ethPool w; kaiPool := kaiPool w; events := events w |}.

Definition setPendingRet (w : DemoWorld) (r : Result (list Byte.byte)) : DemoWorld :=
  {| ethStateFails := ethStateFails w; signerNonce := signerNonce w;
     ethPoolRefuses := ethPoolRefuses w; kaiStateFails := kaiStateFails w;
     pendingRet := r; kaiPoolRefuses := kaiPoolRefuses w;
     dualStateFails := dualStateFails w; eventPoolRefuses := eventPoolRefuses w;
     ethPool := ethPool w; kaiPool := kaiPool w; events := events w |}.

Definition setEventPoolRefuses (w : DemoWorld) : DemoWorld :=
  {| ethStateFails := ethStateFails w; signerNonce := signerNonce w;
     ethPoolRefuses := ethPoolRefuses w; kaiStateFails := kaiStateFails w;
     pendingRet := pendingRet w; kaiPoolRefuses := kaiPoolRefuses w;
     dualStateFails := dualStateFails w; eventPoolRefuses := true;
     ethPool := ethPool w; kaiPool := kaiPool w; events := events w |}.

(** A deposit of [v] sent to the bridge contract, and a transfer to some
    other account. *)
Definition deposit (v : Z) (h : Hash) : Transaction :=
  {| tx_To := Some 8%N; tx_Value := v;
     tx_Data := list_byte_of_string "deposit"; tx_Hash := h |}.

Definition elsewhere (v : Z) (h : Hash) : Transaction :=
  {| tx_To := Some 3%N; tx_Value := v; tx_Data := []; tx_Hash := h |}.

Definition trigger : EventData :=
  {| FromExternal := true; TxSource := "ETH"; TxHash := 1%N;
     Data := {| TxMethod := "deposit"; TxValue := 1000%Z |} |}.

(** A block with two deposits around a transfer that is not for the
    bridge, and the block that follows it. *)
Definition block1 : Block :=
  {| Header := 1%N;
     Transactions := [deposit 1000%Z 11%N; elsewhere 5%Z 12%N; deposit 7%Z 13%N] |}.

Definition block2 : Block :=
  {| Header := 2%N; Transactions := [deposit 1%Z 21%N] |}.

(** The hand-off channel holds [block1] while the head of [block2] waits
    on the subscription channel. *)
Definition busy : Sync.State :=
  {| Sync.chainHeadEventCh := [Some block2]; Sync.blockCh := [Some block1];
     Sync.listening := true; Sync.delivered := []; Sync.handled := [] |}.

(** What the Kardia chain answers in [calm]. *)
Definition calmState : DemoStateDB :=
  {| db_nonce := 0%N; db_pending := Ok bytes500 |}.

End Demo.

(** * The rest of the node file *)

Section NodeRest.
Context {X : Externals}.

(** The calls of a trace that hand a transaction to one of the two
    transaction pools, in the order they were made. *)
Definition submissions (t : Trace) : Trace :=
  filter (fun e => match e with
                   | EthAddLocal _ | KaiAddLocal _ => true
                   | _ => false
                   end) t.

(** The triggered events for which a trace asked the internal chain for
    metadata. *)
Definition queries (t : Trace) : list EventData :=
  flat_map (fun e => match e with QueryTxMetadata d => [d] | _ => [] end) t.

(** What an event handed to the pool says about the transaction [tx] it
    was assembled for. *)
Definition assembledFrom (n : Eth) (tx : Transaction) (ev : DualEvent) : Prop :=
  FromExternal (TriggeredEvent ev) = true
  /\ TxSource (TriggeredEvent ev) = ETHEREUM
  /\ TxHash (TriggeredEvent ev) = tx_Hash tx
  /\ summaryOf n tx = Some (Data (TriggeredEvent ev)).

(** Modelled from the spec: [dev.TriggeringConfig] is not among the
    sources; it holds an ordered sequence of intervals (a slice), the
    repeat flag, and builds a block for a contract address. *)
Record TriggeringConfig := {
  TimeIntervals : list Z;
  RepeatInfinitely : bool;
  GenerateEthBlock : Address -> option Block
}.

(** What [mockBlockGenerationRoutine] does, step by step: it sleeps (the
    argument of [time.Sleep] in milliseconds), logs the generated block and
    sends it on [blockCh], a send that waits for room in the channel. *)
Inductive MockStep :=
| Sleep (ms : Z)
| LogGenerated (block : option Block)
| SendBlock (block : option Block).

(** [for timeout := range triggeringConfig.TimeIntervals { ... }]: with
    one variable, [range] over a slice binds the index. *)
Fixpoint rangeTimeIntervals (cfg : TriggeringConfig) (contractAddr : Address)
    (timeout : Z) (intervals : list Z) : list MockStep :=
  match intervals with
  | [] => []
  | _ :: rest =>
      let block := GenerateEthBlock cfg contractAddr in
      Sleep timeout :: LogGenerated block :: SendBlock block
        :: rangeTimeIntervals cfg contractAddr (timeout + 1)%Z rest
  end.

(** The routine, for at most [passes] turns of its outer loop; the flag
    tells whether it returned within them. *)
Fixpoint mockBlockGenerationRoutine (passes : nat) (n : Eth)
    (triggeringConfig : TriggeringConfig) : list MockStep * bool :=
  match passes with
  | O => ([], false)
  | S k =>
      let contractAddr := HexToAddress (ContractAddress (config n)) in
      let once := rangeTimeIntervals triggeringConfig contractAddr 0%Z
                    (TimeIntervals triggeringConfig) in
      if negb (RepeatInfinitely triggeringConfig) then (once, true)
      else
        match mockBlockGenerationRoutine k n triggeringConfig with
        | (more, returned) => (once ++ more, returned)
        end
  end.

(** The blocks a run of the routine sends. *)
Definition sentBlocks (steps : list MockStep) : list (option Block) :=
  flat_map (fun st => match st with SendBlock b => [b] | _ => [] end) steps.

(** The sleeps of a run, in milliseconds. *)
Definition sleeps (steps : list MockStep) : list Z :=
  flat_map (fun st => match st with Sleep ms => [ms] | _ => [] end) steps.

End NodeRest.

(** ** NewEth: the bootstrap nodes and the cache sizes *)

Section Bootstrap.
Variables DiscoverNode Discv5Node : Type.
Variable discover_ParseNode : string -> Result DiscoverNode.
Variable discv5_ParseNode : string -> Result Discv5Node.

(** [bootstrapNodes], [bootstrapNodesV5] and the error records logged so
    far. *)
Definition BootLists : Type :=
  list DiscoverNode * list Discv5Node * list string.

(** The body of [for _, url := range bootUrls]: a URL that
    [discover.ParseNode] refuses is logged and skipped ([continue]) before
    the second parse. *)
Definition bootStep (acc : BootLists) (url : string) : BootLists :=
  match acc with
  | (bootstrapNodes, bootstrapNodesV5, logged) =>
      match discover_ParseNode url with
      | Err _ => (bootstrapNodes, bootstrapNodesV5, logged ++ ["Bootstrap URL invalid"])
      | Ok peer =>
          let bootstrapNodes := bootstrapNodes ++ [peer] in
          match discv5_ParseNode url with
          | Err _ =>
              (bootstrapNodes, bootstrapNodesV5, logged ++ ["BootstrapV5 URL invalid"])
          | Ok peerV5 => (bootstrapNodes, bootstrapNodesV5 ++ [peerV5], logged)
          end
      end
  end.

Definition bootstrapLoop (bootUrls : list string) : BootLists :=
  fold_left bootStep bootUrls ([], [], []).

End Bootstrap.

(** Go's [int] arithmetic at 64 bits: the result wraps around. *)
Definition wrapInt (z : Z) : Z := ((z + 2 ^ 63) mod 2 ^ 64 - 2 ^ 63)%Z.

(** [ethConf.DatabaseCache = config.CacheSize * 75 / 100] *)
Definition DatabaseCache (cacheSize : Z) : Z :=
  Z.quot (wrapInt (cacheSize * 75)) 100.

(** [ethConf.TrieCache = config.CacheSize * 25 / 100] *)
Definition TrieCache (cacheSize : Z) : Z :=
  Z.quot (wrapInt (cacheSize * 25)) 100.

(** ** syncHead: what a schedule puts in *)

(** The heads the chain sent on the subscription channel, and the blocks
    the mock routine sent on the hand-off channel. *)
Definition fedHeads (ls : list Sync.Label) : list (option Block) :=
  flat_map (fun l => match l with Sync.Feed h => [h] | _ => [] end) ls.

Definition generatedBlocks (ls : list Sync.Label) : list (option Block) :=
  flat_map (fun l => match l with Sync.Generate b => [b] | _ => [] end) ls.

(** ** tool/tx_generator_test.go *)

(** [containsInGenesis]: [keys] are the keys of [configs.GenesisAccounts]
    in the order the [range] over the map happens to visit them. *)
Fixpoint containsInGenesis (keys : list string) (address : string) : bool :=
  match keys with
  | [] => false
  | k :: rest =>
      if String.eqb k address then true else containsInGenesis rest address
  end.

(** ** More of the concrete world *)
Module DemoMore.

(** A call of the bridge contract whose input holds no method id. *)
Definition malformed (h : Hash) : Transaction :=
  {| tx_To := Some 8%N; tx_Value := 0%Z; tx_Data := []; tx_Hash := h |}.

(** A transfer that is not for the bridge, a malformed call, a deposit. *)
Definition block3 : Block :=
  {| Header := 3%N;
     Transactions := [Demo.elsewhere 5%Z 31%N; malformed 33%N; Demo.deposit 2%Z 34%N] |}.

(** A transfer that is not for the bridge, then two deposits. *)
Definition block4 : Block :=
  {| Header := 4%N;
     Transactions := [Demo.elsewhere 5%Z 41%N; Demo.deposit 3%Z 42%N;
                      Demo.deposit 4%Z 43%N] |}.

(** Nothing for the bridge. *)
Definition block5 : Block :=
  {| Header := 5%N;
     Transactions := [Demo.elsewhere 5%Z 51%N; Demo.elsewhere 6%Z 52%N] |}.

(** [Demo.calm], but the dual state cannot be read. *)
Definition noDualState : Demo.DemoWorld := {|
  Demo.ethStateFails := false; Demo.signerNonce := 7%N; Demo.ethPoolRefuses := false;
  Demo.kaiStateFails := false; Demo.pendingRet := Ok Demo.bytes500;
  Demo.kaiPoolRefuses := false;
  Demo.dualStateFails := true; Demo.eventPoolRefuses := false;
  Demo.ethPool := []; Demo.kaiPool := []; Demo.events := []
|}.

(** The event of a release of 500. *)
Definition release500 : EventData :=
  {| FromExternal := true; TxSource := "ETH"; TxHash := 2%N;
     Data := {| TxMethod := "release"; TxValue := 500%Z |} |}.

(** Two heads while the handler loop is busy, then it takes a block, the
    mock routine sends one, and the subscription ends. *)
Definition schedule : list Sync.Label :=
  [Sync.Feed (Some Demo.block1); Sync.Listen; Sync.Feed (Some Demo.block2);
   Sync.Listen; Sync.Handle; Sync.Generate (Some block3); Sync.SubErr].

Definition afterSchedule : Sync.State :=
  {| Sync.chainHeadEventCh := []; Sync.blockCh := [Some block3];
     Sync.listening := false;
     Sync.delivered := [Some Demo.block1]; Sync.handled := [Some Demo.block1] |}.



(** Three intervals, once, and the same three for ever. *)
Definition once : TriggeringConfig :=
  {| TimeIntervals := [100%Z; 200%Z; 300%Z]; RepeatInfinitely := false;
     GenerateEthBlock := fun a => Some {| Header := a; Transactions := [] |} |}.

Definition forever : TriggeringConfig :=
  {| TimeIntervals := [100%Z; 200%Z; 300%Z]; RepeatInfinitely := true;
     GenerateEthBlock := fun a => Some {| Header := a; Transactions := [] |} |}.

End DemoMore.

(** * Properties *)

Section Properties.
Context {X : Externals}.

(** Unfolds the monad, so that a run shows the calls it is made of. *)
Ltac run_monad :=
  cbv [bind ret Monad_M bind_M ret_M log panic read call].

(** The pending-amount read always returns, leaves the world alone and
    hands nothing to a pool. *)
Lemma callKardiaMasterGetEthToSend_returns (n : Eth) (from : Address)
    (statedb : StateDB) (w : World) :
  exists v t,
    callKardiaMasterGetEthToSend n from statedb w = (Ret v, w, t)
    /\ ethSubmissions t = [] /\ kaiSubmissions t = [] /\ poolEvents t = [].
Proof.
  unfold callKardiaMasterGetEthToSend.
  destruct (Pack (smcABI n) "getEthToSend") as [input|e].
  - destruct (CallStaticKardiaMasterSmc from (smcAddress n) (kardiaChain n) input statedb)
      as [bs|e].
    + eexists; eexists; split; [reflexivity | auto].
    + eexists; eexists; split; [reflexivity | auto].
  - eexists; eexists; split; [reflexivity | auto].
Qed.

(** *** The release build and its submission *)

(** With a zero nonce the build returns no transaction and the error
    [NonceZeroFromContract], whatever the amount. *)
Lemma CreateEthReleaseAmountTx_zero_nonce (c r : string) (a : Address)
    (statedb : EthStateDB) (quantity : Z) (smc : EthSmc) (w : World) :
  eth_GetNonce statedb a = 0%N ->
  CreateEthReleaseAmountTx c a r statedb quantity smc w
  = (Ret (None, Some NonceZeroFromContract), w,
     [Log Error_ "Eth state return 0 for nonce of contract address"]).
Proof.
  intros H. unfold CreateEthReleaseAmountTx. rewrite H. reflexivity.
Qed.

Lemma CreateEthReleaseAmountTx_nonzero_nonce (c r : string) (a : Address)
    (statedb : EthStateDB) (quantity : Z) (smc : EthSmc) (w : World) :
  eth_GetNonce statedb a <> 0%N ->
  CreateEthReleaseAmountTx c a r statedb quantity smc w
  = (Ret (Some (CreateEthReleaseTx smc c quantity r (eth_GetNonce statedb a)), None), w,
     [Log Info "Create Eth tx to release"]).
Proof.
  intros H. unfold CreateEthReleaseAmountTx.
  destruct (N.eqb_spec (eth_GetNonce statedb a) 0); [contradiction | reflexivity].
Qed.

(** C1 (the code departs from it).  With a zero nonce of the signing
    account the build fails with [NonceZeroFromContract] and builds no
    transaction, for every amount; but [submitEthReleaseTx] only logs the
    nil result and goes on to the pool: [AddLocal] is called once, with
    the nil transaction, and the pool's world is whatever that call
    leaves. *)
Theorem submitEthReleaseTx_zero_nonce_reaches_pool (n : Eth) (value : Z)
    (w : World) (statedb : EthStateDB) :
  eth_State (geth n) w = Ok statedb ->
  eth_GetNonce statedb signer = 0%N ->
  outcome (CreateEthReleaseAmountTx releaseContractAddr signer releaseReceiveAddr
             statedb value (ethSmc n) w)
  = Ret (None, Some NonceZeroFromContract)
  /\ ethSubmissions (trace (submitEthReleaseTx n value w)) = [None]
  /\ world (submitEthReleaseTx n value w) = snd (eth_AddLocal (geth n) None w).
Proof.
  intros Hst Hn. split.
  - rewrite CreateEthReleaseAmountTx_zero_nonce by exact Hn. reflexivity.
  - unfold submitEthReleaseTx, buildRelease. run_monad. rewrite Hst.
    fold signer. rewrite CreateEthReleaseAmountTx_zero_nonce by exact Hn.
    cbn [fst].
    destruct (eth_AddLocal (geth n) None w) as [[e|] w1]; split; reflexivity.
Qed.

(** *** handleBlock: the two guards *)

(** C10.  With no internal chain registered [handleBlock] panics for every
    block, nil or not, before it looks at the block: nothing is logged,
    nothing reaches a collaborator. *)
Theorem handleBlock_unregistered_panics (n : Eth) (block : option Block) (w : World) :
  internalChain n = None ->
  handleBlock n block w = (Panic "Internal chain needs not to be nil.", w, []).
Proof.
  intros H. unfold handleBlock. rewrite H. reflexivity.
Qed.

(** C6, amended.  Once an internal chain is registered, a nil block makes
    [handleBlock] return without a panic, with the world untouched and a
    trace of exactly one log record, so no event reaches the pool. *)
Theorem handleBlock_nil_block (n : Eth) (ic : BlockChainAdapter) (w : World) :
  internalChain n = Some ic ->
  handleBlock n None w = (Ret tt, w, [Log Info "handleBlock with nil block"])
  /\ poolEvents (trace (handleBlock n None w)) = []
  /\ List.length (logRecords (trace (handleBlock n None w))) = 1%nat.
Proof.
  intros H. unfold handleBlock. rewrite H. repeat split.
Qed.

Lemma RegisterInternalChain_registers (n : Eth) (ic : BlockChainAdapter) :
  internalChain (RegisterInternalChain n ic) = Some ic.
Proof. reflexivity. Qed.

(** *** Traces *)

Lemma ethSubmissions_app (t1 t2 : Trace) :
  ethSubmissions (t1 ++ t2) = ethSubmissions t1 ++ ethSubmissions t2.
Proof. apply flat_map_app. Qed.

Lemma kaiSubmissions_app (t1 t2 : Trace) :
  kaiSubmissions (t1 ++ t2) = kaiSubmissions t1 ++ kaiSubmissions t2.
Proof. apply flat_map_app. Qed.

Lemma poolEvents_app (t1 t2 : Trace) :
  poolEvents (t1 ++ t2) = poolEvents t1 ++ poolEvents t2.
Proof. apply flat_map_app. Qed.

Lemma errorRecords_app (t1 t2 : Trace) :
  errorRecords (t1 ++ t2) = errorRecords t1 ++ errorRecords t2.
Proof. apply flat_map_app. Qed.

(** *** submitEthReleaseTx, case by case *)

Lemma submitEthReleaseTx_state_failure (n : Eth) (value : Z) (w : World) (e : Error) :
  eth_State (geth n) w = Err e ->
  submitEthReleaseTx n value w
  = (Ret tt, w, [Log Error_ "Fail to get Ethereum state to create release tx"]).
Proof.
  intros H. unfold submitEthReleaseTx. run_monad. rewrite H. reflexivity.
Qed.

Lemma submitEthReleaseTx_built (n : Eth) (value : Z) (w : World) (statedb : EthStateDB) :
  eth_State (geth n) w = Ok statedb ->
  eth_GetNonce statedb signer <> 0%N ->
  let tx := releaseTx n value (eth_GetNonce statedb signer) in
  exists l m,
    submitEthReleaseTx n value w
    = (Ret tt, snd (eth_AddLocal (geth n) (Some tx) w),
       [Log Info "Create Eth tx to release"; EthAddLocal (Some tx); Log l m]).
Proof.
  intros Hst Hn tx. unfold submitEthReleaseTx, buildRelease. run_monad.
  rewrite Hst. fold signer.
  rewrite CreateEthReleaseAmountTx_nonzero_nonce by exact Hn.
  cbn [fst]. fold (releaseTx n value (eth_GetNonce statedb signer)). fold tx.
  destruct (eth_AddLocal (geth n) (Some tx) w) as [[e|] w1];
    eexists; eexists; reflexivity.
Qed.

Lemma submitEthReleaseTx_nil (n : Eth) (value : Z) (w : World) (statedb : EthStateDB) :
  eth_State (geth n) w = Ok statedb ->
  eth_GetNonce statedb signer = 0%N ->
  submitEthReleaseTx n value w
  = match eth_AddLocal (geth n) None w with
    | (Some _, w1) =>
        (Ret tt, w1,
         [Log Error_ "Eth state return 0 for nonce of contract address";
          Log Error_ "Fail to create Eth's tx"; EthAddLocal None;
          Log Error_ "Fail to add Ether tx"])
    | (None, w1) =>
        (Panic "invalid memory address or nil pointer dereference", w1,
         [Log Error_ "Eth state return 0 for nonce of contract address";
          Log Error_ "Fail to create Eth's tx"; EthAddLocal None])
    end.
Proof.
  intros Hst Hn. unfold submitEthReleaseTx, buildRelease. run_monad.
  rewrite Hst. fold signer.
  rewrite CreateEthReleaseAmountTx_zero_nonce by exact Hn.
  cbn [fst].
  destruct (eth_AddLocal (geth n) None w) as [[e|] w1]; reflexivity.
Qed.

(** *** SubmitTx, case by case *)

Lemma SubmitTx_state_failure (n : Eth) (event : EventData) (w : World) (e : Error) :
  bc_State (kardiaChain n) w = Err e ->
  SubmitTx n event w = (Ret (Some e), w, [Log Error_ "Fail to get Kardia state"]).
Proof.
  intros H. unfold SubmitTx. run_monad. rewrite H. reflexivity.
Qed.

Lemma SubmitTx_zero (n : Eth) (event : EventData) (w : World) (statedb : StateDB)
    (t0 : Trace) :
  bc_State (kardiaChain n) w = Ok statedb ->
  callKardiaMasterGetEthToSend n sender statedb w = (Ret 0%Z, w, t0) ->
  SubmitTx n event w = (Ret None, w, t0 ++ [Log Info "Kardia smc calls getEthToSend"]).
Proof.
  intros Hst Hc. unfold SubmitTx. run_monad. rewrite Hst. fold sender. rewrite Hc.
  cbn [Z.eqb negb app]. reflexivity.
Qed.

Lemma SubmitTx_nonzero (n : Eth) (event : EventData) (w : World) (statedb : StateDB)
    (v : Z) (t0 : Trace) :
  bc_State (kardiaChain n) w = Ok statedb ->
  callKardiaMasterGetEthToSend n sender statedb w = (Ret v, w, t0) ->
  v <> 0%Z ->
  SubmitTx n event w
  = match submitEthReleaseTx n v w with
    | (Panic m, w1, t1) =>
        (Panic m, w1, t0 ++ Log Info "Kardia smc calls getEthToSend" :: t1)
    | (Ret _, w1, t1) =>
        match kai_AddLocal (txPool n) (debitTx statedb v) w1 with
        | (Some _, w2) =>
            (Ret None, w2,
             t0 ++ Log Info "Kardia smc calls getEthToSend" :: t1
                ++ [KaiAddLocal (debitTx statedb v);
                    Log Error_ "Fail to add Kardia tx to removeEth"])
        | (None, w2) =>
            (Ret None, w2,
             t0 ++ Log Info "Kardia smc calls getEthToSend" :: t1
                ++ [KaiAddLocal (debitTx statedb v);
                    Log Info "Submitted Eth's removeEth tx to its tx pool successfully"])
        end
    end.
Proof.
  intros Hst Hc Hv. unfold SubmitTx. run_monad. rewrite Hst. fold sender. rewrite Hc.
  destruct (Z.eqb_spec v 0) as [|_]; [contradiction|]. cbn [negb].
  fold (debitTx statedb v).
  destruct (submitEthReleaseTx n v w) as [[[[]|m] w1] t1].
  - destruct (kai_AddLocal (txPool n) (debitTx statedb v) w1) as [[e|] w2];
      cbn [app]; rewrite ?app_nil_r; reflexivity.
  - reflexivity.
Qed.

(** *** The poll cycle *)


(** [SubmitTx] returns an error exactly when the Kardia state read
    fails, and then it is that error. *)
Lemma SubmitTx_error_iff (n : Eth) (event : EventData) (w : World) (e : Error) :
  outcome (SubmitTx n event w) = Ret (Some e) <-> bc_State (kardiaChain n) w = Err e.
Proof.
  split.
  - destruct (bc_State (kardiaChain n) w) as [statedb|e'] eqn:Hst.
    + destruct (callKardiaMasterGetEthToSend_returns n sender statedb w)
        as (v & t0 & Hc & _).
      destruct (Z.eq_dec v 0) as [->|Hnz].
      * rewrite (SubmitTx_zero n event Hst Hc). discriminate.
      * rewrite (SubmitTx_nonzero n event Hst Hc Hnz).
        destruct (submitEthReleaseTx n v w) as [[[[]|m] w1] t1].
        -- destruct (kai_AddLocal (txPool n) (debitTx statedb v) w1) as [[e'|] w2];
             discriminate.
        -- discriminate.
    + rewrite (SubmitTx_state_failure n event w Hst). cbn. congruence.
  - intros Hst. rewrite (SubmitTx_state_failure n event w Hst). reflexivity.
Qed.

(** After a successful Kardia state read [SubmitTx] returns nil whatever
    the Ethereum state read and the two pools answer, as long as the
    release build gave a transaction, or the Ethereum pool refuses the
    nil it is handed. *)
Lemma SubmitTx_later_failures_return_nil (n : Eth) (event : EventData) (w : World)
    (statedb : StateDB) :
  bc_State (kardiaChain n) w = Ok statedb ->
  (forall ethdb, eth_State (geth n) w = Ok ethdb ->
     eth_GetNonce ethdb signer = 0%N -> fst (eth_AddLocal (geth n) None w) <> None) ->
  outcome (SubmitTx n event w) = Ret None.
Proof.
  intros Hst Hnil.
  destruct (callKardiaMasterGetEthToSend_returns n sender statedb w)
    as (v & t0 & Hc & _).
  destruct (Z.eq_dec v 0) as [->|Hnz].
  - rewrite (SubmitTx_zero n event Hst Hc). reflexivity.
  - rewrite (SubmitTx_nonzero n event Hst Hc Hnz).
    destruct (eth_State (geth n) w) as [ethdb|e] eqn:Heth.
    + destruct (N.eq_dec (eth_GetNonce ethdb signer) 0) as [Hz|Hnonce].
      * rewrite (submitEthReleaseTx_nil n v w Heth Hz).
        specialize (Hnil ethdb eq_refl Hz).
        destruct (eth_AddLocal (geth n) None w) as [[e|] w1];
          [|exfalso; apply Hnil; reflexivity].
        destruct (kai_AddLocal (txPool n) (debitTx statedb v) w1) as [[e'|] w2];
          reflexivity.
      * destruct (submitEthReleaseTx_built n v w Heth Hnonce) as (l & m & ->).
        match goal with
        | |- context [kai_AddLocal ?p ?t ?w1] =>
            destruct (kai_AddLocal p t w1) as [[e'|] w2]; reflexivity
        end.
    + rewrite (submitEthReleaseTx_state_failure n v w Heth).
      destruct (kai_AddLocal (txPool n) (debitTx statedb v) w) as [[e'|] w2];
        reflexivity.
Qed.

(** C8 (the code departs from it).  A release build that fails on a zero
    signing nonce is logged, but the nil transaction still goes to the
    Ethereum pool; when that call reports no error, the success record
    reads the hash of the nil transaction and the cycle ends in a panic:
    [SubmitTx] does not return nil, and the debit is never attempted. *)
Theorem SubmitTx_failed_build_panics (n : Eth) (event : EventData) (w : World)
    (statedb : StateDB) (v : Z) (ethdb : EthStateDB) :
  bc_State (kardiaChain n) w = Ok statedb ->
  outcome (callKardiaMasterGetEthToSend n sender statedb w) = Ret v ->
  v <> 0%Z ->
  eth_State (geth n) w = Ok ethdb ->
  eth_GetNonce ethdb signer = 0%N ->
  fst (eth_AddLocal (geth n) None w) = None ->
  outcome (SubmitTx n event w)
  = Panic "invalid memory address or nil pointer dereference"
  /\ ethSubmissions (trace (SubmitTx n event w)) = [None]
  /\ kaiSubmissions (trace (SubmitTx n event w)) = [].
Proof.
  intros Hst Hv Hnz Heth Hz Hacc.
  destruct (callKardiaMasterGetEthToSend_returns n sender statedb w)
    as (v' & t0 & Hc & He & Hk & _).
  rewrite Hc in Hv. cbn in Hv. injection Hv as ->.
  rewrite (SubmitTx_nonzero n event Hst Hc Hnz).
  rewrite (submitEthReleaseTx_nil n v w Heth Hz).
  destruct (eth_AddLocal (geth n) None w) as [[e|] w1]; [discriminate|].
  unfold trace, outcome; cbn [fst snd].
  rewrite ethSubmissions_app, kaiSubmissions_app, He, Hk. repeat split.
Qed.

(** C9.  When packing the view call or the static call fails, the
    pending-amount read returns 0; the poll cycle then returns nil, leaves
    the world as it was and hands nothing to either pool, which is what a
    cycle whose read genuinely answers zero does. *)
Theorem pending_read_failure_reads_zero (n : Eth) (event : EventData) (w : World)
    (statedb : StateDB) :
  bc_State (kardiaChain n) w = Ok statedb ->
  pendingReadFails n sender statedb = true ->
  let r := SubmitTx n event w in
  outcome (callKardiaMasterGetEthToSend n sender statedb w) = Ret 0%Z
  /\ outcome r = Ret None /\ world r = w
  /\ ethSubmissions (trace r) = [] /\ kaiSubmissions (trace r) = []
  /\ forall (n' : Eth) (event' : EventData) (w' : World) (statedb' : StateDB),
       bc_State (kardiaChain n') w' = Ok statedb' ->
       pendingReadsZero n' sender statedb' = true ->
       let r' := SubmitTx n' event' w' in
       outcome r' = outcome r /\ world r' = w'
       /\ ethSubmissions (trace r') = ethSubmissions (trace r)
       /\ kaiSubmissions (trace r') = kaiSubmissions (trace r).
Proof.
  intros Hst Hf r.
  assert (Hc : exists t0, callKardiaMasterGetEthToSend n sender statedb w = (Ret 0%Z, w, t0)
                          /\ ethSubmissions t0 = [] /\ kaiSubmissions t0 = []).
  { unfold pendingReadFails in Hf. unfold callKardiaMasterGetEthToSend.
    destruct (Pack (smcABI n) "getEthToSend") as [input|e].
    - destruct (CallStaticKardiaMasterSmc sender (smcAddress n) (kardiaChain n) input statedb)
        as [bs|e]; [discriminate|].
      eexists; split; [reflexivity | split; reflexivity].
    - eexists; split; [reflexivity | split; reflexivity]. }
  destruct Hc as (t0 & Hc & He & Hk).
  assert (Hr : r = (Ret None, w, t0 ++ [Log Info "Kardia smc calls getEthToSend"])).
  { subst r. apply (SubmitTx_zero n event Hst Hc). }
  rewrite Hr, Hc. unfold outcome, world, trace; cbn [fst snd].
  rewrite ethSubmissions_app, kaiSubmissions_app, He, Hk.
  do 5 (split; [reflexivity|]).
  intros n' event' w' statedb' Hst' Hz.
  assert (Hc' : callKardiaMasterGetEthToSend n' sender statedb' w' = (Ret 0%Z, w', [])).
  { unfold pendingReadsZero in Hz. unfold callKardiaMasterGetEthToSend.
    destruct (Pack (smcABI n') "getEthToSend") as [input|e]; [|discriminate].
    destruct (CallStaticKardiaMasterSmc sender (smcAddress n') (kardiaChain n') input statedb')
      as [bs|e]; [|discriminate].
    apply Z.eqb_eq in Hz. rewrite Hz. reflexivity. }
  rewrite (SubmitTx_zero n' event' Hst' Hc'). repeat split.
Qed.

(** *** The response metadata *)


(** With a zero signing nonce the build gives nil, and reading its hash
    ends [ComputeTxMetadata] in a panic. *)
Lemma ComputeTxMetadata_zero_nonce (n : Eth) (event : EventData) (w : World)
    (statedb : EthStateDB) :
  eth_State (geth n) w = Ok statedb ->
  eth_GetNonce statedb signer = 0%N ->
  outcome (ComputeTxMetadata n event w)
  = Panic "invalid memory address or nil pointer dereference".
Proof.
  intros Heth Hz. unfold ComputeTxMetadata, buildRelease. run_monad.
  rewrite Heth. fold signer.
  rewrite CreateEthReleaseAmountTx_zero_nonce by exact Hz. reflexivity.
Qed.

(** *** The loop of handleBlock *)

Lemma handleTx_not_addressed (n : Eth) (ic : BlockChainAdapter) (a : Address)
    (tx : Transaction) (w : World) :
  addressedTo a tx = false ->
  handleTx n ic a tx w = (Ret Next, w, []).
Proof.
  intros H. unfold handleTx. rewrite H. reflexivity.
Qed.

(** One addressed transaction, when its input decodes and the dual state
    can be read: the event is assembled, handed to the pool once, and the
    loop goes on exactly when the pool accepts it. *)
Lemma handleTx_assembled (n : Eth) (ic : BlockChainAdapter) (a : Address)
    (tx : Transaction) (w : World) (s : EventSummary) (statedb : StateDB) :
  addressedTo a tx = true ->
  summaryOf n tx = Some s ->
  dual_State (dualChain n) w = Ok statedb ->
  let d := TriggeredEvent (eventFor tx s statedb None) in
  let md := fst (adapter_ComputeTxMetadata ic d w) in
  let w1 := snd (adapter_ComputeTxMetadata ic d w) in
  let ev := eventFor tx s statedb md in
  handleTx n ic a tx w
  = match pool_AddEvent (eventPool n) ev w1 with
    | (Some _, w2) =>
        (Ret Return, w2,
         [Log Info "New Eth's tx detected on smart contract";
          QueryTxMetadata d; Log Info "Create DualEvent for Eth's Tx";
          AddEvent ev; Log Error_ "Fail to add dual's event"])
    | (None, w2) =>
        (Ret Next, w2,
         [Log Info "New Eth's tx detected on smart contract";
          QueryTxMetadata d; Log Info "Create DualEvent for Eth's Tx";
          AddEvent ev;
          Log Info "Submitted Eth's DualEvent to event pool successfully"])
    end.
Proof.
  intros Ha Hs Hst d md w1 ev. subst d md w1 ev.
  unfold handleTx, extractEthTxSummary, eventFor. rewrite Ha.
  unfold summaryOf in Hs.
  destruct (InputMethodName (ethSmc n) (tx_Data tx)) as [method|e]; [|discriminate].
  injection Hs as <-. run_monad. rewrite Hst. cbn [TriggeredEvent NewDualEvent
    setPendingTxMetadata Nonce].
  destruct (adapter_ComputeTxMetadata ic _ w) as [md w1]. cbn [fst snd].
  destruct (pool_AddEvent (eventPool n) _ w1) as [[e|] w2]; reflexivity.
Qed.

(** What one turn of the loop can contribute: either the summary of the
    transaction, handed to the pool once, or nothing; and the turn ends
    the scan (by a return or a panic) only with an error record. *)
Lemma handleTx_addressed (n : Eth) (ic : BlockChainAdapter) (a : Address)
    (tx : Transaction) (w : World) :
  addressedTo a tx = true ->
  let r := handleTx n ic a tx w in
  (map Some (summaries (trace r)) = [summaryOf n tx]
   /\ (outcome r = Ret Next \/ errorRecords (trace r) <> []))
  \/ (summaries (trace r) = [] /\ outcome r <> Ret Next
      /\ errorRecords (trace r) <> []).
Proof.
  intros Ha r. subst r.
  destruct (summaryOf n tx) as [s|] eqn:Hs.
  - destruct (dual_State (dualChain n) w) as [statedb|e] eqn:Hst.
    + left. rewrite (handleTx_assembled n ic a tx w Ha Hs Hst).
      destruct (pool_AddEvent (eventPool n) _ _) as [[e|] w2].
      * split; [reflexivity | right; discriminate].
      * split; [reflexivity | left; reflexivity].
    + right. unfold handleTx, extractEthTxSummary. rewrite Ha.
      unfold summaryOf in Hs.
      destruct (InputMethodName (ethSmc n) (tx_Data tx)) as [method|e']; [|discriminate].
      run_monad. rewrite Hst. repeat split; discriminate.
  - right. unfold handleTx, extractEthTxSummary. rewrite Ha.
    unfold summaryOf in Hs.
    destruct (InputMethodName (ethSmc n) (tx_Data tx)) as [method|e']; [discriminate|].
    run_monad. repeat split; discriminate.
Qed.

Lemma scanTransactions_cons (n : Eth) (ic : BlockChainAdapter) (a : Address)
    (tx : Transaction) (rest : list Transaction) (w : World) :
  scanTransactions n ic a (tx :: rest) w
  = match handleTx n ic a tx w with
    | (Ret Next, w1, t1) =>
        match scanTransactions n ic a rest w1 with
        | (o, w2, t2) => (o, w2, t1 ++ t2)
        end
    | (Ret Return, w1, t1) => (Ret tt, w1, t1)
    | (Panic m, w1, t1) => (Panic m, w1, t1)
    end.
Proof.
  cbn [scanTransactions]. run_monad.
  destruct (handleTx n ic a tx w) as [[[[]|m] w1] t1]; try reflexivity.
  rewrite app_nil_r. reflexivity.
Qed.

(** A transaction that is not addressed to the contract leaves no mark on
    the scan. *)
Lemma scanTransactions_filter (n : Eth) (ic : BlockChainAdapter) (a : Address)
    (txns : list Transaction) (w : World) :
  scanTransactions n ic a (filter (addressedTo a) txns) w
  = scanTransactions n ic a txns w.
Proof.
  revert w. induction txns as [|tx rest IH]; intros w; [reflexivity|].
  cbn [filter]. destruct (addressedTo a tx) eqn:Ha.
  - rewrite !scanTransactions_cons.
    destruct (handleTx n ic a tx w) as [[[[]|m] w1] t1]; try reflexivity.
    rewrite IH. reflexivity.
  - rewrite IH. rewrite (scanTransactions_cons n ic a tx rest w).
    rewrite (handleTx_not_addressed n ic a tx w Ha).
    destruct (scanTransactions n ic a rest w) as [[o w2] t2]. reflexivity.
Qed.




(** A scan of [pre] that returns without an error record went through
    every turn, so a longer scan picks up where it ended. *)
Lemma scanTransactions_app (n : Eth) (ic : BlockChainAdapter) (a : Address)
    (pre l : list Transaction) (w w1 : World) (t1 : Trace) :
  scanTransactions n ic a pre w = (Ret tt, w1, t1) ->
  errorRecords t1 = [] ->
  scanTransactions n ic a (pre ++ l) w
  = match scanTransactions n ic a l w1 with
    | (o, w2, t2) => (o, w2, t1 ++ t2)
    end.
Proof.
  revert w t1. induction pre as [|tx rest IH]; intros w t1 Hpre He.
  - cbn in Hpre. injection Hpre as <- <-. cbn [app].
    destruct (scanTransactions n ic a l w) as [[o w2] t2]. reflexivity.
  - cbn [app]. rewrite scanTransactions_cons in *.
    assert (Htx : addressedTo a tx = true ->
                  outcome (handleTx n ic a tx w) = Ret Next
                  \/ errorRecords (trace (handleTx n ic a tx w)) <> []).
    { intros Ha. destruct (handleTx_addressed n ic a tx w Ha) as [[_ H]|[_ [_ H]]];
        [exact H | right; exact H]. }
    destruct (addressedTo a tx) eqn:Ha.
    + specialize (Htx eq_refl).
      destruct (handleTx n ic a tx w) as [[[[]|m] w0] t0];
        unfold trace, outcome in *; cbn [fst snd] in *.
      * destruct (scanTransactions n ic a rest w0) as [[o w2] t2] eqn:Hrest.
        injection Hpre as -> -> <-.
        rewrite errorRecords_app in He. apply app_eq_nil in He. destruct He as [_ He2].
        rewrite (IH w0 t2 Hrest He2).
        destruct (scanTransactions n ic a l w1) as [[o' w3] t3].
        rewrite app_assoc. reflexivity.
      * injection Hpre as <- <-.
        exfalso. destruct Htx as [Hn|Hn]; [discriminate | apply Hn; exact He].
      * discriminate.
    + rewrite (handleTx_not_addressed n ic a tx w Ha) in *.
      destruct (scanTransactions n ic a rest w) as [[o w2] t2] eqn:Hrest.
      cbn [app] in Hpre. injection Hpre as -> -> <-.
      rewrite (IH w t2 Hrest He).
      destruct (scanTransactions n ic a l w1) as [[o' w3] t3]. reflexivity.
Qed.


(** C4, amended.  When the Event Pool refuses the event assembled for a
    transaction, the event was handed to the pool once, the refusal is
    logged, and [handleBlock] returns there: the trace ends with the error
    record, so nothing is retried and the transactions after it in the
    block are not processed, whatever they are.  What the earlier
    transactions of the block did stands. *)
Theorem handleBlock_returns_at_refused_event (n : Eth) (ic : BlockChainAdapter)
    (b : Block) (pre rest : list Transaction) (tx : Transaction)
    (w w1 : World) (t1 : Trace) (s : EventSummary) (statedb : StateDB) :
  let a := HexToAddress (ContractAddress (config n)) in
  let d := TriggeredEvent (eventFor tx s statedb None) in
  let ev := eventFor tx s statedb (fst (adapter_ComputeTxMetadata ic d w1)) in
  let w2 := snd (adapter_ComputeTxMetadata ic d w1) in
  internalChain n = Some ic ->
  Transactions b = pre ++ tx :: rest ->
  scanTransactions n ic a pre w = (Ret tt, w1, t1) ->
  errorRecords t1 = [] ->
  addressedTo a tx = true ->
  summaryOf n tx = Some s ->
  dual_State (dualChain n) w1 = Ok statedb ->
  fst (pool_AddEvent (eventPool n) ev w2) <> None ->
  handleBlock n (Some b) w
  = (Ret tt, snd (pool_AddEvent (eventPool n) ev w2),
     Log Info "handleBlock..." :: t1 ++
     [Log Info "New Eth's tx detected on smart contract";
      QueryTxMetadata d; Log Info "Create DualEvent for Eth's Tx";
      AddEvent ev; Log Error_ "Fail to add dual's event"]).
Proof.
  intros a d ev w2 Hic Hb Hpre He Ha Hs Hst Hrefuse.
  unfold handleBlock. rewrite Hic. run_monad. fold a. rewrite Hb.
  rewrite (scanTransactions_app n ic a pre (tx :: rest) w Hpre He).
  rewrite scanTransactions_cons.
  rewrite (handleTx_assembled n ic a tx w1 Ha Hs Hst).
  fold d. fold ev. fold w2.
  destruct (pool_AddEvent (eventPool n) ev w2) as [[e|] w3].
  - reflexivity.
  - exfalso. apply Hrefuse. reflexivity.
Qed.

End Properties.

(** * The hand-off buffer of syncHead *)

Lemma step_delivered (lightNode : bool) (l : Sync.Label) (s s1 : Sync.State) :
  Sync.step lightNode l s = Some s1 ->
  exists more, Sync.delivered s1 = Sync.delivered s ++ more.
Proof.
  destruct l; cbn [Sync.step]; intros H.
  - destruct (_ <? _)%nat; [|discriminate]. injection H as <-.
    exists []. cbn. now rewrite app_nil_r.
  - destruct (Sync.listening s); [|discriminate].
    destruct (Sync.chainHeadEventCh s); [discriminate|]. injection H as <-.
    exists []. cbn. now rewrite app_nil_r.
  - destruct (Sync.listening s); [|discriminate]. injection H as <-.
    exists []. cbn. now rewrite app_nil_r.
  - destruct (_ <? _)%nat; [|discriminate]. injection H as <-.
    exists []. cbn. now rewrite app_nil_r.
  - destruct (Sync.blockCh s) as [|x q]; [discriminate|]. injection H as <-.
    exists [x]. reflexivity.
Qed.

Lemma run_delivered (lightNode : bool) (ls : list Sync.Label) (s s1 : Sync.State) :
  Sync.run lightNode ls s = Some s1 ->
  exists more, Sync.delivered s1 = Sync.delivered s ++ more.
Proof.
  revert s. induction ls as [|l ls IH]; intros s H; cbn [Sync.run] in H.
  - injection H as <-. exists []. now rewrite app_nil_r.
  - destruct (Sync.step lightNode l s) as [s0|] eqn:Hs; [|discriminate].
    destruct (step_delivered _ _ _ Hs) as [m1 H1].
    destruct (IH _ H) as [m2 H2].
    exists (m1 ++ m2). rewrite H2, H1, app_assoc. reflexivity.
Qed.


(** C5.  While the hand-off channel holds an undelivered block [b]: a
    head notification taken by the listener is dropped and leaves [b] in
    the channel; under every schedule [b] stays alone in the channel until
    the handler loop takes it, and it is the next block delivered; and the
    listener's step is enabled in every state in which it listens and a
    notification waits, whatever the hand-off channel holds, so the insert
    never blocks the feed. *)
Theorem blockCh_keeps_buffered_block (lightNode : bool) (s : Sync.State)
    (b : option Block) :
  Sync.blockCh s = [b] ->
  (forall head q,
     Sync.listening s = true -> Sync.chainHeadEventCh s = head :: q ->
     Sync.step lightNode Sync.Listen s
     = Some {| Sync.chainHeadEventCh := q; Sync.blockCh := [b];
               Sync.listening := true;
               Sync.delivered := Sync.delivered s; Sync.handled := Sync.handled s |})
  /\ (forall ls s1,
        Sync.run lightNode ls s = Some s1 ->
        (Sync.blockCh s1 = [b] /\ Sync.delivered s1 = Sync.delivered s
         /\ Sync.handled s1 = Sync.handled s)
        \/ exists more, Sync.delivered s1 = Sync.delivered s ++ b :: more)
  /\ (forall ls s1,
        Sync.run lightNode ls s = Some s1 ->
        forallb (fun l => negb (Sync.isHandle l)) ls = true ->
        Sync.blockCh s1 = [b])
  /\ (forall s0 head q,
        Sync.listening s0 = true -> Sync.chainHeadEventCh s0 = head :: q ->
        exists s1, Sync.step lightNode Sync.Listen s0 = Some s1
                   /\ Sync.chainHeadEventCh s1 = q).
Proof.
  intros Hb.
  assert (Hrun : forall ls s0 s1,
            Sync.blockCh s0 = [b] ->
            Sync.run lightNode ls s0 = Some s1 ->
            (Sync.blockCh s1 = [b] /\ Sync.delivered s1 = Sync.delivered s0
             /\ Sync.handled s1 = Sync.handled s0
             /\ forallb (fun l => negb (Sync.isHandle l)) ls = true)
            \/ (forallb (fun l => negb (Sync.isHandle l)) ls = false
                /\ exists more, Sync.delivered s1 = Sync.delivered s0 ++ b :: more)).
  { induction ls as [|l ls IH]; intros s0 s1 H0 H; cbn [Sync.run] in H.
    - injection H as <-. left. repeat split. exact H0.
    - destruct (Sync.step lightNode l s0) as [s2|] eqn:Hs; [|discriminate].
      destruct l; cbn [Sync.step] in Hs.
      + destruct (_ <? _)%nat; [|discriminate]. injection Hs as <-.
        apply IH in H; [exact H | exact H0].
      + destruct (Sync.listening s0); [|discriminate].
        destruct (Sync.chainHeadEventCh s0); [discriminate|]. injection Hs as <-.
        apply IH in H; [exact H|]. cbn [Sync.blockCh]. rewrite H0. reflexivity.
      + destruct (Sync.listening s0); [|discriminate]. injection Hs as <-.
        apply IH in H; [exact H | exact H0].
      + rewrite H0 in Hs. discriminate.
      + rewrite H0 in Hs. injection Hs as <-.
        right. split; [reflexivity|].
        destruct (run_delivered _ _ _ H) as [more Hm]. cbn [Sync.delivered] in Hm.
        exists more. rewrite Hm, <- app_assoc. reflexivity. }
  split; [|split; [|split]].
  - intros head q Hl Hq. cbn [Sync.step]. rewrite Hl, Hq, Hb. reflexivity.
  - intros ls s1 H. destruct (Hrun ls s s1 Hb H) as [(H1 & H2 & H3 & _)|[_ H1]].
    + left. repeat split; assumption.
    + right. exact H1.
  - intros ls s1 H Hno. destruct (Hrun ls s s1 Hb H) as [(H1 & _)|[H1 _]].
    + exact H1.
    + rewrite H1 in Hno. discriminate.
  - intros s0 head q Hl Hq. cbn [Sync.step]. rewrite Hl, Hq.
    eexists. split; reflexivity.
Qed.

(** * More of the settlement side *)

Section Settlement.
Context {X : Externals}.

Ltac run_steps :=
  cbv [bind ret Monad_M bind_M ret_M log panic read call].

(** *** The amount behind the bytes *)

Lemma SetBytes_from (acc : Z) (bs : list Byte.byte) :
  fold_left (fun a b => (a * 256 + Z.of_N (Byte.to_N b))%Z) bs acc
  = (acc * 256 ^ Z.of_nat (List.length bs) + SetBytes bs)%Z.
Proof.
  unfold SetBytes. revert acc. induction bs as [|b bs IH]; intros acc.
  - cbn. lia.
  - cbn [fold_left List.length]. rewrite IH.
    rewrite (IH (0 * 256 + Z.of_N (Byte.to_N b))%Z).
    rewrite Nat2Z.inj_succ, Z.pow_succ_r by lia. ring.
Qed.

Lemma SetBytes_cons (b : Byte.byte) (bs : list Byte.byte) :
  SetBytes (b :: bs)
  = (Z.of_N (Byte.to_N b) * 256 ^ Z.of_nat (List.length bs) + SetBytes bs)%Z.
Proof.
  unfold SetBytes at 1. cbn [fold_left]. rewrite SetBytes_from. ring.
Qed.

Lemma byte_range (b : Byte.byte) : (0 <= Z.of_N (Byte.to_N b) <= 255)%Z.
Proof.
  pose proof (Byte.to_N_bounded b). lia.
Qed.


Lemma SetBytes_range (bs : list Byte.byte) :
  (0 <= SetBytes bs < 256 ^ Z.of_nat (List.length bs))%Z.
Proof.
  induction bs as [|b bs IH].
  - cbn. lia.
  - rewrite SetBytes_cons. cbn [List.length]. rewrite Nat2Z.inj_succ, Z.pow_succ_r by lia.
    pose proof (byte_range b). nia.
Qed.


Lemma pending_amount_run (n : Eth) (from : Address)
    (statedb : StateDB) (w : World) :
  exists v t,
    callKardiaMasterGetEthToSend n from statedb w = (Ret v, w, t)
    /\ (0 <= v)%Z
    /\ submissions t = [] /\ poolEvents t = [] /\ queries t = []
    /\ (pendingReadFails n from statedb = true -> v = 0%Z)
    /\ (forall input bs,
          Pack (smcABI n) "getEthToSend" = Ok input ->
          CallStaticKardiaMasterSmc from (smcAddress n) (kardiaChain n) input statedb
          = Ok bs ->
          v = SetBytes bs /\ (v < 256 ^ Z.of_nat (List.length bs))%Z).
Proof.
  unfold callKardiaMasterGetEthToSend, pendingReadFails.
  destruct (Pack (smcABI n) "getEthToSend") as [input|e].
  - destruct (CallStaticKardiaMasterSmc from (smcAddress n) (kardiaChain n) input statedb)
      as [bs|e] eqn:Hcall.
    + exists (SetBytes bs), []. pose proof (SetBytes_range bs) as Hr.
      split; [reflexivity|]. split; [lia|]. do 3 (split; [reflexivity|]).
      split; [discriminate|].
      intros input' bs' Hi Hc. injection Hi as Hi. subst input'.
      rewrite Hcall in Hc. injection Hc as <-. split; [reflexivity|lia].
    + eexists; eexists. split; [reflexivity|]. split; [lia|].
      do 3 (split; [reflexivity|]). split; [reflexivity|].
      intros input' bs' Hi Hc. injection Hi as Hi. subst input'.
      rewrite Hcall in Hc. discriminate.
  - eexists; eexists. split; [reflexivity|]. split; [lia|].
    do 3 (split; [reflexivity|]). split; [reflexivity|]. intros; discriminate.
Qed.

(** X2.  The pending-amount read never panics, leaves the world as it is,
    and its amount is never negative: it is 0 when packing or the call
    fails, and otherwise the unsigned big-endian value of the returned
    bytes, below 256 to the number of bytes. *)
Theorem callKardiaMasterGetEthToSend_amount (n : Eth) (from : Address)
    (statedb : StateDB) (w : World) :
  exists v t,
    callKardiaMasterGetEthToSend n from statedb w = (Ret v, w, t)
    /\ (0 <= v)%Z
    /\ submissions t = [] /\ poolEvents t = [] /\ queries t = []
    /\ (pendingReadFails n from statedb = true -> v = 0%Z)
    /\ (forall input bs,
          Pack (smcABI n) "getEthToSend" = Ok input ->
          CallStaticKardiaMasterSmc from (smcAddress n) (kardiaChain n) input statedb
          = Ok bs ->
          v = SetBytes bs /\ (v < 256 ^ Z.of_nat (List.length bs))%Z).
Proof.
  exact (pending_amount_run n from statedb w).
Qed.


(** *** The calls of one poll cycle *)

Lemma submissions_app (t1 t2 : Trace) :
  submissions (t1 ++ t2) = submissions t1 ++ submissions t2.
Proof. apply filter_app. Qed.

Lemma queries_app (t1 t2 : Trace) :
  queries (t1 ++ t2) = queries t1 ++ queries t2.
Proof. apply flat_map_app. Qed.

(** The pool calls of [submitEthReleaseTx], case by case. *)
Lemma submitEthReleaseTx_calls (n : Eth) (v : Z) (w : World) :
  let r := submitEthReleaseTx n v w in
  poolEvents (trace r) = [] /\ queries (trace r) = []
  /\ ((exists e, eth_State (geth n) w = Err e)
      /\ outcome r = Ret tt /\ submissions (trace r) = []
      \/ (exists ethdb, eth_State (geth n) w = Ok ethdb
            /\ eth_GetNonce ethdb signer <> 0%N
            /\ submissions (trace r)
               = [EthAddLocal (Some (releaseTx n v (eth_GetNonce ethdb signer)))])
         /\ outcome r = Ret tt
      \/ (exists ethdb, eth_State (geth n) w = Ok ethdb
            /\ eth_GetNonce ethdb signer = 0%N)
         /\ submissions (trace r) = [EthAddLocal None]).
Proof.
  intros r. subst r.
  destruct (eth_State (geth n) w) as [ethdb|e] eqn:Heth.
  - destruct (N.eq_dec (eth_GetNonce ethdb signer) 0) as [Hz|Hnz].
    + rewrite (submitEthReleaseTx_nil n v w Heth Hz).
      destruct (eth_AddLocal (geth n) None w) as [[e|] w1];
        (split; [reflexivity|]; split; [reflexivity|]; right; right;
         split; [exists ethdb; split; [reflexivity | exact Hz] | reflexivity]).
    + destruct (submitEthReleaseTx_built n v w Heth Hnz) as (l & m & ->).
      split; [reflexivity|]. split; [reflexivity|]. right; left.
      split; [|reflexivity]. exists ethdb. repeat split. exact Hnz.
  - rewrite (submitEthReleaseTx_state_failure n v w Heth).
    split; [reflexivity|]. split; [reflexivity|]. left.
    split; [exists e; reflexivity|]. split; reflexivity.
Qed.

Lemma SubmitTx_calls_nonzero (n : Eth) (event : EventData) (w : World)
    (statedb : StateDB) (v : Z) (t0 : Trace) :
  bc_State (kardiaChain n) w = Ok statedb ->
  callKardiaMasterGetEthToSend n sender statedb w = (Ret v, w, t0) ->
  submissions t0 = [] -> poolEvents t0 = [] -> queries t0 = [] ->
  v <> 0%Z ->
  let t := trace (SubmitTx n event w) in
  poolEvents t = [] /\ queries t = []
  /\ (submissions t = [KaiAddLocal (debitTx statedb v)]
      \/ (exists ethdb, eth_State (geth n) w = Ok ethdb
            /\ eth_GetNonce ethdb signer <> 0%N
            /\ submissions t
               = [EthAddLocal (Some (releaseTx n v (eth_GetNonce ethdb signer)));
                  KaiAddLocal (debitTx statedb v)])
      \/ submissions t = [EthAddLocal None; KaiAddLocal (debitTx statedb v)]
      \/ submissions t = [EthAddLocal None]).
Proof.
  intros Hst Hc Hs0 Hp0 Hq0 Hnz t. subst t.
  rewrite (SubmitTx_nonzero n event Hst Hc Hnz).
  pose proof (submitEthReleaseTx_calls n v w) as Hr. cbv zeta in Hr.
  destruct (submitEthReleaseTx n v w) as [[[[]|m] w1] t1];
    unfold trace, outcome in *; cbn [fst snd] in *;
    destruct Hr as (Hp1 & Hq1 & Hr).
  - destruct (kai_AddLocal (txPool n) (debitTx statedb v) w1) as [[e|] w2];
      cbn [snd];
      rewrite poolEvents_app, queries_app, submissions_app, Hp0, Hq0, Hs0;
      change (Log Info "Kardia smc calls getEthToSend" :: t1 ++ ?l)
        with ((Log Info "Kardia smc calls getEthToSend" :: t1) ++ l);
      rewrite poolEvents_app, queries_app, submissions_app;
      cbn [poolEvents queries submissions flat_map filter app];
      fold (poolEvents t1); fold (queries t1); fold (submissions t1);
      rewrite Hp1, Hq1;
      (split; [reflexivity|]; split; [reflexivity|]);
      destruct Hr as [(_ & _ & ->)|[((ethdb & He & Hn & ->) & _)|(_ & ->)]];
      [ left; reflexivity
      | right; left; exists ethdb; repeat split; assumption
      | right; right; left; reflexivity
      | left; reflexivity
      | right; left; exists ethdb; repeat split; assumption
      | right; right; left; reflexivity ].
  - rewrite poolEvents_app, queries_app, submissions_app, Hp0, Hq0, Hs0.
    cbn [poolEvents queries submissions flat_map filter app].
    fold (poolEvents t1); fold (queries t1); fold (submissions t1).
    rewrite Hp1, Hq1. split; [reflexivity|]. split; [reflexivity|].
    destruct Hr as [(_ & Ho & _)|[(_ & Ho)|(_ & ->)]]; try discriminate.
    right; right; right. reflexivity.
Qed.

(** X3.  Per poll cycle each pool is called at most once, and never the
    Kardia pool before the Ethereum pool: the pool calls of [SubmitTx] are
    none at all, the debit alone (the Ethereum state read failed), the
    release followed by the debit, or the nil release alone (the cycle
    ended in the panic).  Whenever a call is made the amount is the one
    read from the contract and it is strictly positive, and a release that
    is not nil carries a non-zero nonce. *)
Theorem SubmitTx_pool_calls (n : Eth) (event : EventData) (w : World) :
  let t := submissions (trace (SubmitTx n event w)) in
  t = []
  \/ exists statedb v,
       bc_State (kardiaChain n) w = Ok statedb
       /\ outcome (callKardiaMasterGetEthToSend n sender statedb w) = Ret v
       /\ (0 < v)%Z
       /\ (t = [KaiAddLocal (debitTx statedb v)]
           \/ (exists ethdb, eth_State (geth n) w = Ok ethdb
                 /\ eth_GetNonce ethdb signer <> 0%N
                 /\ t = [EthAddLocal (Some (releaseTx n v (eth_GetNonce ethdb signer)));
                         KaiAddLocal (debitTx statedb v)])
           \/ t = [EthAddLocal None; KaiAddLocal (debitTx statedb v)]
           \/ t = [EthAddLocal None]).
Proof.
  intros t. subst t.
  destruct (bc_State (kardiaChain n) w) as [statedb|e] eqn:Hst.
  - destruct (pending_amount_run n sender statedb w)
      as (v & t0 & Hc & Hv & Hs0 & Hp0 & Hq0 & _).
    destruct (Z.eq_dec v 0) as [->|Hnz].
    + left. rewrite (SubmitTx_zero n event Hst Hc). unfold trace; cbn [snd].
      rewrite submissions_app, Hs0. reflexivity.
    + right. exists statedb, v. split; [reflexivity|].
      split; [rewrite Hc; reflexivity|]. split; [lia|].
      apply (SubmitTx_calls_nonzero n event Hst Hc Hs0 Hp0 Hq0 Hnz).
  - left. rewrite (SubmitTx_state_failure n event w Hst). reflexivity.
Qed.


(** X5.  [SubmitTx] never hands an event to the Event Pool and never asks
    the internal chain for metadata. *)
Theorem SubmitTx_leaves_event_pool_alone (n : Eth) (event : EventData) (w : World) :
  poolEvents (trace (SubmitTx n event w)) = []
  /\ queries (trace (SubmitTx n event w)) = [].
Proof.
  destruct (bc_State (kardiaChain n) w) as [statedb|e] eqn:Hst.
  - destruct (pending_amount_run n sender statedb w)
      as (v & t0 & Hc & _ & Hs0 & Hp0 & Hq0 & _).
    destruct (Z.eq_dec v 0) as [->|Hnz].
    + rewrite (SubmitTx_zero n event Hst Hc). unfold trace; cbn [snd].
      rewrite poolEvents_app, queries_app, Hp0, Hq0. split; reflexivity.
    + destruct (SubmitTx_calls_nonzero n event Hst Hc Hs0 Hp0 Hq0 Hnz) as (H1 & H2 & _).
      split; assumption.
  - rewrite (SubmitTx_state_failure n event w Hst). split; reflexivity.
Qed.

(** X6.  The metadata names the release: when the amount pending on the
    contract is the value of the triggering event, the Ethereum state can
    be read and the signing nonce is not zero, the hash that
    [ComputeTxMetadata] returns for the event is the hash of the release
    transaction that [SubmitTx] hands to the Ethereum pool in the same
    world. *)
Theorem ComputeTxMetadata_names_the_release (n : Eth) (event trigger : EventData)
    (w : World) (statedb : StateDB) (ethdb : EthStateDB) :
  bc_State (kardiaChain n) w = Ok statedb ->
  outcome (callKardiaMasterGetEthToSend n sender statedb w)
  = Ret (TxValue (Data event)) ->
  TxValue (Data event) <> 0%Z ->
  eth_State (geth n) w = Ok ethdb ->
  eth_GetNonce ethdb signer <> 0%N ->
  exists tx,
    ethSubmissions (trace (SubmitTx n trigger w)) = [Some tx]
    /\ outcome (ComputeTxMetadata n event w)
       = Ret (Some {| md_TxHash := tx_Hash tx; md_Target := ETHEREUM |}).
Proof.
  intros Hst Hv Hnz Heth Hnonce.
  destruct (pending_amount_run n sender statedb w)
    as (v & t0 & Hc & _ & Hs0 & _).
  rewrite Hc in Hv. cbn in Hv. injection Hv as ->.
  assert (He0 : ethSubmissions t0 = []).
  { clear - Hc. unfold callKardiaMasterGetEthToSend in Hc.
    destruct (Pack (smcABI n) "getEthToSend") as [input|e].
    - destruct (CallStaticKardiaMasterSmc _ _ _ input statedb) as [bs|e];
        injection Hc as _ <-; reflexivity.
    - injection Hc as _ <-. reflexivity. }
  exists (releaseTx n (TxValue (Data event)) (eth_GetNonce ethdb signer)). split.
  - rewrite (SubmitTx_nonzero n trigger Hst Hc Hnz).
    destruct (submitEthReleaseTx_built n (TxValue (Data event)) w Heth Hnonce)
      as (l & m & ->).
    match goal with
    | |- context [kai_AddLocal ?p ?t ?w1] =>
        destruct (kai_AddLocal p t w1) as [[e'|] w2]
    end; unfold trace; cbn [snd]; rewrite ethSubmissions_app, He0; reflexivity.
  - unfold ComputeTxMetadata, buildRelease. run_steps. rewrite Heth. fold signer.
    rewrite CreateEthReleaseAmountTx_nonzero_nonce by exact Hnonce. reflexivity.
Qed.

End Settlement.

(** * More of the relay side *)

Section Relay.
Context {X : Externals}.

Ltac run_steps :=
  cbv [bind ret Monad_M bind_M ret_M log panic read call].

(** One turn of the loop: what its trace holds and how it can end. *)
Lemma handleTx_trace (n : Eth) (ic : BlockChainAdapter) (a : Address)
    (tx : Transaction) (w : World) :
  let r := handleTx n ic a tx w in
  submissions (trace r) = []
  /\ map TriggeredEvent (poolEvents (trace r)) = queries (trace r)
  /\ Forall (fun ev => addressedTo a tx = true /\ assembledFrom n tx ev)
       (poolEvents (trace r))
  /\ (forall m, outcome r = Panic m ->
        m = "Not yet implemented!" /\ addressedTo a tx = true
        /\ summaryOf n tx = None).
Proof.
  intros r. subst r.
  destruct (addressedTo a tx) eqn:Ha.
  - destruct (summaryOf n tx) as [s|] eqn:Hs.
    + destruct (dual_State (dualChain n) w) as [statedb|e] eqn:Hst.
      * rewrite (handleTx_assembled n ic a tx w Ha Hs Hst).
        destruct (pool_AddEvent (eventPool n) _ _) as [[e|] w2];
          (split; [reflexivity|]; split; [reflexivity|];
           split; [|intros m Hm; discriminate];
           constructor; [|constructor];
           split; [reflexivity|]; unfold assembledFrom; cbn;
           repeat split; exact Hs).
      * unfold handleTx, extractEthTxSummary. rewrite Ha.
        unfold summaryOf in Hs.
        destruct (InputMethodName (ethSmc n) (tx_Data tx)) as [method|e'];
          [|discriminate].
        run_steps. rewrite Hst.
        split; [reflexivity|]. split; [reflexivity|].
        split; [constructor | intros m Hm; discriminate].
    + unfold handleTx, extractEthTxSummary. rewrite Ha.
      unfold summaryOf in Hs.
      destruct (InputMethodName (ethSmc n) (tx_Data tx)) as [method|e'];
        [discriminate|].
      run_steps.
      split; [reflexivity|]. split; [reflexivity|].
      split; [constructor|].
      intros m Hm. injection Hm as <-. repeat split.
  - rewrite (handleTx_not_addressed n ic a tx w Ha).
    split; [reflexivity|]. split; [reflexivity|].
    split; [constructor | intros m Hm; discriminate].
Qed.

(** The whole scan. *)
Lemma scanTransactions_trace (n : Eth) (ic : BlockChainAdapter) (a : Address)
    (txns : list Transaction) (w : World) :
  let r := scanTransactions n ic a txns w in
  submissions (trace r) = []
  /\ map TriggeredEvent (poolEvents (trace r)) = queries (trace r)
  /\ Forall (fun ev => exists tx, In tx txns /\ addressedTo a tx = true
                                  /\ assembledFrom n tx ev)
       (poolEvents (trace r))
  /\ (outcome r = Ret tt
      \/ outcome r = Panic "Not yet implemented!"
         /\ exists tx, In tx txns /\ addressedTo a tx = true /\ summaryOf n tx = None).
Proof.
  revert w. induction txns as [|tx rest IH]; intros w r; subst r.
  - split; [reflexivity|]. split; [reflexivity|].
    split; [constructor | left; reflexivity].
  - rewrite scanTransactions_cons.
    pose proof (handleTx_trace n ic a tx w) as Htx. cbv zeta in Htx.
    destruct (handleTx n ic a tx w) as [[[[]|m] w1] t1];
      unfold trace, outcome in *; cbn [fst snd] in *;
      destruct Htx as (Hs1 & Hq1 & Hf1 & Hp1).
    + specialize (IH w1). cbv zeta in IH.
      destruct (scanTransactions n ic a rest w1) as [[o w2] t2].
      cbn [fst snd] in *. destruct IH as (Hs2 & Hq2 & Hf2 & Ho2).
      rewrite submissions_app, poolEvents_app, queries_app, map_app, Hs1, Hs2, Hq1, Hq2.
      split; [reflexivity|]. split; [reflexivity|]. split.
      * apply Forall_app. split.
        -- eapply Forall_impl; [|exact Hf1]. cbn beta. intros ev [Ha Hev].
           exists tx. split; [left; reflexivity|]. split; assumption.
        -- eapply Forall_impl; [|exact Hf2]. cbn beta. intros ev (tx' & Hin & Ha & Hev).
           exists tx'. split; [right; exact Hin|]. split; assumption.
      * destruct Ho2 as [Ho2|[Ho2 (tx' & Hin & Ha & Hn)]]; [left; exact Ho2|].
        right. split; [exact Ho2|]. exists tx'. split; [right; exact Hin|].
        split; assumption.
    + split; [exact Hs1|]. split; [exact Hq1|]. split.
      * eapply Forall_impl; [|exact Hf1]. cbn beta. intros ev [Ha Hev].
        exists tx. split; [left; reflexivity|]. split; assumption.
      * left. reflexivity.
    + split; [exact Hs1|]. split; [exact Hq1|]. split.
      * eapply Forall_impl; [|exact Hf1]. cbn beta. intros ev [Ha Hev].
        exists tx. split; [left; reflexivity|]. split; assumption.
      * destruct (Hp1 m eq_refl) as (-> & Ha & Hn).
        right. split; [reflexivity|]. exists tx.
        split; [left; reflexivity|]. split; assumption.
Qed.

(** X7.  [handleBlock] never hands a transaction to the Ethereum pool or
    to Kardia's pool, whatever the block and whether or not an internal
    chain is registered. *)
Theorem handleBlock_leaves_tx_pools_alone (n : Eth) (block : option Block)
    (w : World) :
  submissions (trace (handleBlock n block w)) = [].
Proof.
  unfold handleBlock. destruct (internalChain n) as [ic|]; [|reflexivity].
  destruct block as [b|]; [|reflexivity]. run_steps.
  pose proof (scanTransactions_trace n ic
                (HexToAddress (ContractAddress (config n))) (Transactions b) w) as H.
  cbv zeta in H.
  destruct (scanTransactions n ic _ (Transactions b) w) as [[o w2] t2].
  unfold trace in *; cbn [snd] in *. apply H.
Qed.

(** X8.  Every event that [handleBlock] hands to the Event Pool was
    assembled from a transaction of the block that is addressed to the
    bridge contract: it is marked external, its source is [ETHEREUM], its
    hash is the hash of that transaction, and its summary holds the decoded
    method name and the native value of that transaction. *)
Theorem handleBlock_events_come_from_the_block (n : Eth) (b : Block) (w : World) :
  Forall (fun ev =>
            exists tx, In tx (Transactions b)
                       /\ addressedTo (HexToAddress (ContractAddress (config n))) tx = true
                       /\ assembledFrom n tx ev)
    (poolEvents (trace (handleBlock n (Some b) w))).
Proof.
  unfold handleBlock. destruct (internalChain n) as [ic|]; [|constructor].
  run_steps.
  pose proof (scanTransactions_trace n ic
                (HexToAddress (ContractAddress (config n))) (Transactions b) w) as H.
  cbv zeta in H.
  destruct (scanTransactions n ic _ (Transactions b) w) as [[o w2] t2].
  unfold trace in *; cbn [snd] in *. apply H.
Qed.

(** X9.  [handleBlock] asks the internal chain for metadata once per event
    it hands to the Event Pool, for that event's triggered payload and in
    the same order: no event is handed on without the query, and no query
    is made for an event that is then not handed on. *)
Theorem handleBlock_queries_match_events (n : Eth) (block : option Block)
    (w : World) :
  map TriggeredEvent (poolEvents (trace (handleBlock n block w)))
  = queries (trace (handleBlock n block w)).
Proof.
  unfold handleBlock. destruct (internalChain n) as [ic|]; [|reflexivity].
  destruct block as [b|]; [|reflexivity]. run_steps.
  pose proof (scanTransactions_trace n ic
                (HexToAddress (ContractAddress (config n))) (Transactions b) w) as H.
  cbv zeta in H.
  destruct (scanTransactions n ic _ (Transactions b) w) as [[o w2] t2].
  unfold trace in *; cbn [snd] in *. apply H.
Qed.

(** X10.  Once an internal chain is registered, [handleBlock] either
    returns or panics with the message of the unfinished decode-failure
    path, and it panics only when the block holds a transaction addressed
    to the bridge contract whose input does not decode. *)
Theorem handleBlock_panics_only_on_decode_failure (n : Eth)
    (ic : BlockChainAdapter) (block : option Block) (w : World) :
  internalChain n = Some ic ->
  outcome (handleBlock n block w) = Ret tt
  \/ outcome (handleBlock n block w) = Panic "Not yet implemented!"
     /\ exists b tx,
          block = Some b /\ In tx (Transactions b)
          /\ addressedTo (HexToAddress (ContractAddress (config n))) tx = true
          /\ summaryOf n tx = None.
Proof.
  intros Hic. unfold handleBlock. rewrite Hic.
  destruct block as [b|]; [|left; reflexivity]. run_steps.
  pose proof (scanTransactions_trace n ic
                (HexToAddress (ContractAddress (config n))) (Transactions b) w) as H.
  cbv zeta in H.
  destruct (scanTransactions n ic _ (Transactions b) w) as [[o w2] t2].
  unfold outcome in *; cbn [fst snd] in *.
  destruct H as (_ & _ & _ & [Ho|[Ho (tx & Hin & Ha & Hn)]]).
  - left. exact Ho.
  - right. split; [exact Ho|]. exists b, tx. repeat split; assumption.
Qed.

(** X11.  A block with no transaction addressed to the bridge contract
    (the empty block included) only leaves the opening log record: the
    world is untouched and no collaborator is called. *)
Theorem handleBlock_nothing_addressed (n : Eth) (ic : BlockChainAdapter)
    (b : Block) (w : World) :
  internalChain n = Some ic ->
  filter (addressedTo (HexToAddress (ContractAddress (config n)))) (Transactions b) = [] ->
  handleBlock n (Some b) w = (Ret tt, w, [Log Info "handleBlock..."]).
Proof.
  intros Hic Hf. unfold handleBlock. rewrite Hic. run_steps.
  rewrite <- scanTransactions_filter, Hf. reflexivity.
Qed.

(** X12.  When the input of a transaction addressed to the bridge contract
    does not decode, [handleBlock] logs the two error records and panics
    there: no dual state is read and nothing is handed on for it or for
    the transactions after it, while what the earlier transactions of the
    block did stands. *)
Theorem handleBlock_panics_at_undecodable_input (n : Eth) (ic : BlockChainAdapter)
    (b : Block) (pre rest : list Transaction) (tx : Transaction)
    (w w1 : World) (t1 : Trace) :
  let a := HexToAddress (ContractAddress (config n)) in
  internalChain n = Some ic ->
  Transactions b = pre ++ tx :: rest ->
  scanTransactions n ic a pre w = (Ret tt, w1, t1) ->
  errorRecords t1 = [] ->
  addressedTo a tx = true ->
  summaryOf n tx = None ->
  handleBlock n (Some b) w
  = (Panic "Not yet implemented!", w1,
     Log Info "handleBlock..." :: t1 ++
     [Log Info "New Eth's tx detected on smart contract";
      Log Error_ "Error when unpack Eth smc input";
      Log Error_ "Error when extracting Eth's tx summary."]).
Proof.
  intros a Hic Hb Hpre He Ha Hs.
  unfold handleBlock. rewrite Hic. run_steps. fold a. rewrite Hb.
  rewrite (scanTransactions_app n ic a pre (tx :: rest) w Hpre He).
  rewrite scanTransactions_cons.
  unfold handleTx, extractEthTxSummary. rewrite Ha. unfold summaryOf in Hs.
  destruct (InputMethodName (ethSmc n) (tx_Data tx)) as [method|e]; [discriminate|].
  reflexivity.
Qed.

(** X13.  When the dual state cannot be read for a transaction addressed
    to the bridge contract, [handleBlock] logs the failure and returns
    there: no metadata is asked for, no event is handed to the pool for it
    or for the transactions after it, and the world is as the earlier
    transactions left it. *)
Theorem handleBlock_returns_at_dual_state_failure (n : Eth) (ic : BlockChainAdapter)
    (b : Block) (pre rest : list Transaction) (tx : Transaction)
    (w w1 : World) (t1 : Trace) (s : EventSummary) (e : Error) :
  let a := HexToAddress (ContractAddress (config n)) in
  internalChain n = Some ic ->
  Transactions b = pre ++ tx :: rest ->
  scanTransactions n ic a pre w = (Ret tt, w1, t1) ->
  errorRecords t1 = [] ->
  addressedTo a tx = true ->
  summaryOf n tx = Some s ->
  dual_State (dualChain n) w1 = Err e ->
  handleBlock n (Some b) w
  = (Ret tt, w1,
     Log Info "handleBlock..." :: t1 ++
     [Log Info "New Eth's tx detected on smart contract";
      Log Error_ "Fail to get Kardia state"]).
Proof.
  intros a Hic Hb Hpre He Ha Hs Hst.
  unfold handleBlock. rewrite Hic. run_steps. fold a. rewrite Hb.
  rewrite (scanTransactions_app n ic a pre (tx :: rest) w Hpre He).
  rewrite scanTransactions_cons.
  unfold handleTx, extractEthTxSummary. rewrite Ha. unfold summaryOf in Hs.
  destruct (InputMethodName (ethSmc n) (tx_Data tx)) as [method|e']; [|discriminate].
  run_steps. rewrite Hst. reflexivity.
Qed.

End Relay.

(** * More of the head tracker *)

(** Membership in lists put together with [++] and [::]. *)
Ltac solve_in :=
  repeat (first [ progress rewrite in_app_iff in *
                | progress cbn [In app] in * ]);
  tauto.

(** What the two channels and the handler hold. *)
Lemma step_contents (lightNode : bool) (l : Sync.Label) (s s1 : Sync.State) :
  Sync.step lightNode l s = Some s1 ->
  incl (Sync.delivered s1 ++ Sync.blockCh s1 ++ Sync.chainHeadEventCh s1)
       ((Sync.delivered s ++ Sync.blockCh s ++ Sync.chainHeadEventCh s)
        ++ fedHeads [l] ++ generatedBlocks [l])
  /\ (List.length (Sync.delivered s1) + List.length (Sync.blockCh s1)
      + List.length (Sync.chainHeadEventCh s1)
      <= List.length (Sync.delivered s) + List.length (Sync.blockCh s)
         + List.length (Sync.chainHeadEventCh s)
         + List.length (fedHeads [l]) + List.length (generatedBlocks [l]))%nat.
Proof.
  destruct l; cbn [Sync.step]; intros H.
  - destruct (_ <? _)%nat; [|discriminate]. injection H as <-.
    cbn [Sync.delivered Sync.blockCh Sync.chainHeadEventCh fedHeads generatedBlocks
         flat_map app List.length].
    split.
    + intros x Hx. solve_in.
    + rewrite length_app. cbn [List.length]. lia.
  - destruct (Sync.listening s); [|discriminate].
    destruct (Sync.chainHeadEventCh s) as [|head q] eqn:Hq; [discriminate|].
    injection H as <-.
    cbn [Sync.delivered Sync.blockCh Sync.chainHeadEventCh fedHeads generatedBlocks
         flat_map app List.length].
    unfold Sync.offer. destruct (_ <? _)%nat.
    + split.
      * intros x Hx. solve_in.
      * rewrite !length_app. cbn [List.length]. lia.
    + split.
      * intros x Hx. solve_in.
      * cbn [List.length]. lia.
  - destruct (Sync.listening s); [|discriminate]. injection H as <-.
    cbn [Sync.delivered Sync.blockCh Sync.chainHeadEventCh fedHeads generatedBlocks
         flat_map app List.length].
    split.
    + intros x Hx. solve_in.
    + lia.
  - destruct (_ <? _)%nat; [|discriminate]. injection H as <-.
    cbn [Sync.delivered Sync.blockCh Sync.chainHeadEventCh fedHeads generatedBlocks
         flat_map app List.length].
    split.
    + intros x Hx. solve_in.
    + rewrite !length_app. cbn [List.length]. lia.
  - destruct (Sync.blockCh s) as [|x q] eqn:Hq; [discriminate|]. injection H as <-.
    cbn [Sync.delivered Sync.blockCh Sync.chainHeadEventCh fedHeads generatedBlocks
         flat_map app List.length].
    split.
    + intros y Hy. solve_in.
    + rewrite !length_app. cbn [List.length]. lia.
Qed.

Lemma fedHeads_cons (l : Sync.Label) (ls : list Sync.Label) :
  fedHeads (l :: ls) = fedHeads [l] ++ fedHeads ls.
Proof. cbn. rewrite app_nil_r. reflexivity. Qed.

Lemma generatedBlocks_cons (l : Sync.Label) (ls : list Sync.Label) :
  generatedBlocks (l :: ls) = generatedBlocks [l] ++ generatedBlocks ls.
Proof. cbn. rewrite app_nil_r. reflexivity. Qed.

Lemma run_contents (lightNode : bool) (ls : list Sync.Label) (s s1 : Sync.State) :
  Sync.run lightNode ls s = Some s1 ->
  incl (Sync.delivered s1 ++ Sync.blockCh s1 ++ Sync.chainHeadEventCh s1)
       ((Sync.delivered s ++ Sync.blockCh s ++ Sync.chainHeadEventCh s)
        ++ fedHeads ls ++ generatedBlocks ls)
  /\ (List.length (Sync.delivered s1) + List.length (Sync.blockCh s1)
      + List.length (Sync.chainHeadEventCh s1)
      <= List.length (Sync.delivered s) + List.length (Sync.blockCh s)
         + List.length (Sync.chainHeadEventCh s)
         + List.length (fedHeads ls) + List.length (generatedBlocks ls))%nat.
Proof.
  revert s. induction ls as [|l ls IH]; intros s H; cbn [Sync.run] in H.
  - injection H as <-. split.
    + intros x Hx. rewrite !in_app_iff in *. tauto.
    + lia.
  - destruct (Sync.step lightNode l s) as [s0|] eqn:Hs; [|discriminate].
    destruct (step_contents _ _ _ Hs) as [Hi1 Hl1].
    destruct (IH _ H) as [Hi2 Hl2].
    rewrite fedHeads_cons, generatedBlocks_cons. split.
    + intros x Hx. apply Hi2 in Hx. rewrite in_app_iff in Hx.
      destruct Hx as [Hx|Hx].
      * apply Hi1 in Hx. rewrite !in_app_iff in *. tauto.
      * rewrite !in_app_iff in *. tauto.
    + rewrite !length_app. lia.
Qed.



(** X15.  Nothing is made up and nothing is doubled: under every schedule
    from the start, every block that reached the handler loop was sent by
    the chain as a head or by the mock routine, and the blocks delivered
    or still waiting are no more than the heads and blocks put in. *)
Theorem delivered_blocks_were_put_in (lightNode : bool) (ls : list Sync.Label)
    (s1 : Sync.State) :
  Sync.run lightNode ls Sync.init = Some s1 ->
  incl (Sync.delivered s1) (fedHeads ls ++ generatedBlocks ls)
  /\ (List.length (Sync.delivered s1) + List.length (Sync.blockCh s1)
      + List.length (Sync.chainHeadEventCh s1)
      <= List.length (fedHeads ls) + List.length (generatedBlocks ls))%nat.
Proof.
  intros H. destruct (run_contents _ _ _ H) as [Hi Hl]. split.
  - intros x Hx. apply (Hi x). rewrite in_app_iff. left. exact Hx.
  - cbn in Hl. lia.
Qed.

(** X16.  The handler loop starts [handleBlock] for every block it takes
    from the hand-off channel, in the order it takes them, unless the node
    is a light node, in which case it starts it for none. *)
Theorem handled_follows_delivered (lightNode : bool) (ls : list Sync.Label)
    (s1 : Sync.State) :
  Sync.run lightNode ls Sync.init = Some s1 ->
  Sync.handled s1 = if lightNode then [] else Sync.delivered s1.
Proof.
  assert (Hinit : Sync.handled Sync.init
                  = if lightNode then [] else Sync.delivered Sync.init)
    by (destruct lightNode; reflexivity).
  revert Hinit. generalize Sync.init as s.
  induction ls as [|l ls IH]; intros s Hinv H; cbn [Sync.run] in H.
  - injection H as <-. exact Hinv.
  - destruct (Sync.step lightNode l s) as [s0|] eqn:Hs; [|discriminate].
    apply (IH s0); [|exact H]. clear IH H.
    destruct l; cbn [Sync.step] in Hs.
    + destruct (_ <? _)%nat; [|discriminate]. injection Hs as <-. exact Hinv.
    + destruct (Sync.listening s); [|discriminate].
      destruct (Sync.chainHeadEventCh s); [discriminate|]. injection Hs as <-. exact Hinv.
    + destruct (Sync.listening s); [|discriminate]. injection Hs as <-. exact Hinv.
    + destruct (_ <? _)%nat; [|discriminate]. injection Hs as <-. exact Hinv.
    + destruct (Sync.blockCh s); [discriminate|]. injection Hs as <-.
      cbn [Sync.handled Sync.delivered]. rewrite Hinv.
      destruct lightNode; reflexivity.
Qed.


Lemma step_keeps (lightNode : bool) (l : Sync.Label) (s s1 : Sync.State) :
  Sync.step lightNode l s = Some s1 ->
  incl (Sync.delivered s ++ Sync.blockCh s ++ generatedBlocks [l])
       (Sync.delivered s1 ++ Sync.blockCh s1).
Proof.
  destruct l; cbn [Sync.step]; intros H.
  - destruct (_ <? _)%nat; [|discriminate]. injection H as <-.
    intros x Hx. cbn in *. solve_in.
  - destruct (Sync.listening s); [|discriminate].
    destruct (Sync.chainHeadEventCh s) as [|head q]; [discriminate|].
    injection H as <-. cbn [Sync.delivered Sync.blockCh generatedBlocks flat_map app].
    unfold Sync.offer. destruct (_ <? _)%nat;
      intros x Hx; solve_in.
  - destruct (Sync.listening s); [|discriminate]. injection H as <-.
    intros x Hx. cbn in *. solve_in.
  - destruct (_ <? _)%nat; [|discriminate]. injection H as <-.
    intros x Hx. cbn in *. solve_in.
  - destruct (Sync.blockCh s) as [|y q] eqn:Hq; [discriminate|]. injection H as <-.
    intros x Hx. cbn in *. solve_in.
Qed.

(** X18.  A block of the mock routine is never dropped: its send waits for
    room, so under every schedule each block it sent is on the hand-off
    channel or was delivered to the handler loop, as is every block that
    was there before. *)
Theorem generated_blocks_are_never_dropped (lightNode : bool)
    (ls : list Sync.Label) (s s1 : Sync.State) :
  Sync.run lightNode ls s = Some s1 ->
  incl (Sync.delivered s ++ Sync.blockCh s ++ generatedBlocks ls)
       (Sync.delivered s1 ++ Sync.blockCh s1).
Proof.
  revert s. induction ls as [|l ls IH]; intros s H; cbn [Sync.run] in H.
  - injection H as <-. intros x Hx. cbn in Hx. solve_in.
  - destruct (Sync.step lightNode l s) as [s0|] eqn:Hs; [|discriminate].
    pose proof (step_keeps _ _ _ Hs) as H1. pose proof (IH _ H) as H2.
    rewrite generatedBlocks_cons.
    intros x Hx. apply H2. rewrite !in_app_iff in *.
    destruct Hx as [Hx|[Hx|[Hx|Hx]]].
    + assert (Hy : In x (Sync.delivered s0 ++ Sync.blockCh s0))
        by (apply H1; rewrite !in_app_iff; tauto).
      rewrite in_app_iff in Hy. tauto.
    + assert (Hy : In x (Sync.delivered s0 ++ Sync.blockCh s0))
        by (apply H1; rewrite !in_app_iff; tauto).
      rewrite in_app_iff in Hy. tauto.
    + assert (Hy : In x (Sync.delivered s0 ++ Sync.blockCh s0))
        by (apply H1; rewrite !in_app_iff; tauto).
      rewrite in_app_iff in Hy. tauto.
    + tauto.
Qed.

(** * The mock routine, the construction of the node, the test helper *)

Section MockRoutine.
Context {X : Externals}.

Lemma rangeTimeIntervals_run (cfg : TriggeringConfig) (a : Address) (k : Z)
    (intervals : list Z) :
  sentBlocks (rangeTimeIntervals cfg a k intervals)
  = repeat (GenerateEthBlock cfg a) (List.length intervals)
  /\ sleeps (rangeTimeIntervals cfg a k intervals)
     = map (fun i => (k + Z.of_nat i)%Z) (seq 0 (List.length intervals)).
Proof.
  revert k. induction intervals as [|i rest IH]; intros k; [split; reflexivity|].
  cbn [rangeTimeIntervals List.length sentBlocks sleeps flat_map app repeat seq map].
  destruct (IH (k + 1)%Z) as [IH1 IH2].
  fold (sentBlocks (rangeTimeIntervals cfg a (k + 1) rest)).
  fold (sleeps (rangeTimeIntervals cfg a (k + 1) rest)).
  rewrite IH1, IH2. split; [reflexivity|].
  f_equal; [f_equal; lia|].
  rewrite <- seq_shift, map_map. apply map_ext. intros j. lia.
Qed.

Lemma sentBlocks_app (s1 s2 : list MockStep) :
  sentBlocks (s1 ++ s2) = sentBlocks s1 ++ sentBlocks s2.
Proof. apply flat_map_app. Qed.

(** X19.  Without the repeat flag the mock routine returns after one pass
    of its outer loop, having sent one block per configured interval, each
    built for the configured contract address; the sleep before the block
    number i is i milliseconds, the index that [range] binds, whatever the
    configured intervals are. *)
Theorem mockBlockGenerationRoutine_one_pass (passes : nat) (n : Eth)
    (cfg : TriggeringConfig) :
  RepeatInfinitely cfg = false ->
  let run := mockBlockGenerationRoutine (S passes) n cfg in
  snd run = true
  /\ sentBlocks (fst run)
     = repeat (GenerateEthBlock cfg (HexToAddress (ContractAddress (config n))))
         (List.length (TimeIntervals cfg))
  /\ sleeps (fst run) = map Z.of_nat (seq 0 (List.length (TimeIntervals cfg))).
Proof.
  intros Hr run. subst run. cbn [mockBlockGenerationRoutine]. rewrite Hr.
  cbn [negb fst snd].
  destruct (rangeTimeIntervals_run cfg (HexToAddress (ContractAddress (config n))) 0
              (TimeIntervals cfg)) as [H1 H2].
  split; [reflexivity|]. split; [exact H1|]. rewrite H2.
  apply map_ext. intros i. lia.
Qed.

(** X20.  With the repeat flag the mock routine never returns: however
    many passes of the outer loop it is given, it is still running after
    them, and it has sent one block per interval in each pass. *)
Theorem mockBlockGenerationRoutine_repeats (passes : nat) (n : Eth)
    (cfg : TriggeringConfig) :
  RepeatInfinitely cfg = true ->
  let run := mockBlockGenerationRoutine passes n cfg in
  snd run = false
  /\ sentBlocks (fst run)
     = repeat (GenerateEthBlock cfg (HexToAddress (ContractAddress (config n))))
         (passes * List.length (TimeIntervals cfg)).
Proof.
  intros Hr. cbv zeta. induction passes as [|k IH]; [split; reflexivity|].
  cbn [mockBlockGenerationRoutine]. rewrite Hr. cbn [negb].
  destruct (mockBlockGenerationRoutine k n cfg) as [more returned].
  cbn [fst snd] in *. destruct IH as [IH1 IH2]. split; [exact IH1|].
  rewrite sentBlocks_app, IH2.
  destruct (rangeTimeIntervals_run cfg (HexToAddress (ContractAddress (config n))) 0
              (TimeIntervals cfg)) as [H1 _].
  rewrite H1. cbn [Nat.mul]. rewrite repeat_app. reflexivity.
Qed.

End MockRoutine.

Section BootstrapFacts.
Variables DiscoverNode Discv5Node : Type.
Variable discover_ParseNode : string -> Result DiscoverNode.
Variable discv5_ParseNode : string -> Result Discv5Node.

Lemma bootstrap_from (urls : list string) (v4 : list DiscoverNode)
    (v5 : list Discv5Node) (logged : list string) :
  fold_left (bootStep discover_ParseNode discv5_ParseNode) urls (v4, v5, logged)
  = (v4 ++ flat_map (fun url => match discover_ParseNode url with
                                | Ok peer => [peer]
                                | Err _ => []
                                end) urls,
     v5 ++ flat_map (fun url => match discover_ParseNode url with
                                | Ok _ => match discv5_ParseNode url with
                                          | Ok peerV5 => [peerV5]
                                          | Err _ => []
                                          end
                                | Err _ => []
                                end) urls,
     logged ++ flat_map (fun url => match discover_ParseNode url with
                                    | Ok _ => match discv5_ParseNode url with
                                              | Ok _ => []
                                              | Err _ => ["BootstrapV5 URL invalid"]
                                              end
                                    | Err _ => ["Bootstrap URL invalid"]
                                    end) urls).
Proof.
  revert v4 v5 logged. induction urls as [|url rest IH]; intros v4 v5 logged.
  - cbn. rewrite !app_nil_r. reflexivity.
  - cbn [fold_left flat_map]. unfold bootStep at 2.
    destruct (discover_ParseNode url) as [peer|e].
    + destruct (discv5_ParseNode url) as [peerV5|e];
        rewrite IH, <- !app_assoc; reflexivity.
    + rewrite IH, <- !app_assoc. reflexivity.
Qed.

(** X21.  The bootstrap loop of [NewEth] keeps the URLs in order: the
    first list holds the nodes of the URLs that [discover.ParseNode]
    accepts, the second the nodes of the URLs that both parsers accept (a
    URL the first parser refuses is never tried with the second), and each
    URL gives either a node of the second list or exactly one error
    record; so the second list is never longer than the first, nor the
    first than the list of URLs. *)
Theorem bootstrapLoop_lists (bootUrls : list string) :
  let r := bootstrapLoop discover_ParseNode discv5_ParseNode bootUrls in
  let bootstrapNodes := fst (fst r) in
  let bootstrapNodesV5 := snd (fst r) in
  bootstrapNodes
  = flat_map (fun url => match discover_ParseNode url with
                         | Ok peer => [peer]
                         | Err _ => []
                         end) bootUrls
  /\ bootstrapNodesV5
     = flat_map (fun url => match discover_ParseNode url with
                            | Ok _ => match discv5_ParseNode url with
                                      | Ok peerV5 => [peerV5]
                                      | Err _ => []
                                      end
                            | Err _ => []
                            end) bootUrls
  /\ (List.length bootstrapNodesV5 + List.length (snd r) = List.length bootUrls)%nat
  /\ (List.length bootstrapNodesV5 <= List.length bootstrapNodes
      <= List.length bootUrls)%nat.
Proof.
  cbv zeta. unfold bootstrapLoop. rewrite (bootstrap_from bootUrls [] [] []).
  cbn [fst snd app].
  split; [reflexivity|]. split; [reflexivity|].
  induction bootUrls as [|url rest IH]; [cbn; lia|].
  cbn [flat_map]. rewrite !length_app.
  destruct (discover_ParseNode url) as [peer|e];
    [destruct (discv5_ParseNode url) as [peerV5|e]|]; cbn [List.length]; lia.
Qed.

End BootstrapFacts.

(** X22.  For a cache size from 0 up to 28633115 (where the product by 75
    fits a 32-bit [int] as well as a 64-bit one) the two shares that
    [NewEth] computes are not negative and add up to the cache size when it
    is a multiple of 4, and to one less otherwise. *)
Theorem cache_shares (cacheSize : Z) :
  (0 <= cacheSize <= 28633115)%Z ->
  (0 <= DatabaseCache cacheSize)%Z /\ (0 <= TrieCache cacheSize)%Z
  /\ (DatabaseCache cacheSize + TrieCache cacheSize
      = if (cacheSize mod 4 =? 0)%Z then cacheSize else cacheSize - 1)%Z.
Proof.
  intros H. unfold DatabaseCache, TrieCache, wrapInt.
  assert (H75 : ((cacheSize * 75 + 2 ^ 63) mod 2 ^ 64 - 2 ^ 63 = cacheSize * 75)%Z).
  { rewrite Z.mod_small; lia. }
  assert (H25 : ((cacheSize * 25 + 2 ^ 63) mod 2 ^ 64 - 2 ^ 63 = cacheSize * 25)%Z).
  { rewrite Z.mod_small; lia. }
  rewrite H75, H25.
  rewrite !Z.quot_div_nonneg by lia.
  destruct (Z.eqb_spec (cacheSize mod 4) 0) as [Hm|Hm];
    Z.div_mod_to_equations; lia.
Qed.

(** X23.  [containsInGenesis] answers true exactly for the keys of the
    genesis accounts, and its answer does not depend on the order in which
    the map is walked. *)
Theorem containsInGenesis_is_membership (keys : list string) (address : string) :
  (containsInGenesis keys address = true <-> In address keys)
  /\ forall keys', Permutation keys keys' ->
       containsInGenesis keys' address = containsInGenesis keys address.
Proof.
  assert (Hiff : forall ks, containsInGenesis ks address = true <-> In address ks).
  { induction ks as [|k rest IH]; cbn [containsInGenesis In].
    - split; [discriminate | contradiction].
    - destruct (String.eqb_spec k address) as [->|Hne].
      + split; [left; reflexivity | reflexivity].
      + rewrite IH. split; [right; assumption | intros [?|?]; [contradiction|assumption]]. }
  split; [apply Hiff|].
  intros keys' Hp.
  destruct (containsInGenesis keys address) eqn:H1.
  - apply Hiff. apply Hiff in H1. eapply Permutation_in; eassumption.
  - destruct (containsInGenesis keys' address) eqn:H2; [|reflexivity].
    apply Hiff in H2. apply Permutation_sym in Hp.
    pose proof (Permutation_in _ Hp H2) as H3. apply Hiff in H3. congruence.
Qed.

(** * The theorems at work on the concrete world *)

#[local] Existing Instance Demo.demo.

Lemma submitEthReleaseTx_zero_nonce_reaches_pool_witness :
  eth_State (geth Demo.node) (Demo.setSignerNonce Demo.calm 0%N) = Ok 0%N
  /\ @eth_GetNonce Demo.demo 0%N signer = 0%N
  /\ ethSubmissions
       (trace (submitEthReleaseTx Demo.node 500%Z (Demo.setSignerNonce Demo.calm 0%N)))
     = [None].
Proof.
  split; [reflexivity|]. split; [reflexivity|].
  apply (submitEthReleaseTx_zero_nonce_reaches_pool Demo.node 500%Z
           (Demo.setSignerNonce Demo.calm 0%N) (statedb := 0%N));
    reflexivity.
Defined.





(** C4 as stated fails: after the pool refused the event of the first
    deposit, the second deposit of the block is not processed, although
    processing it from the world the refusal left would hand its event to
    the pool. *)
Lemma handleBlock_drops_rest_after_refusal :
  let w := Demo.setEventPoolRefuses Demo.calm in
  let a := HexToAddress (ContractAddress (config Demo.node)) in
  let d1 := Demo.deposit 1000%Z 11%N in
  let d2 := Demo.deposit 7%Z 13%N in
  let first := handleTx Demo.node Demo.demoAdapter a d1 w in
  let after := scanTransactions Demo.node Demo.demoAdapter a [d2] (world first) in
  List.length (poolEvents (trace after)) = 1%nat
  /\ trace (scanTransactions Demo.node Demo.demoAdapter a [d1; d2] w)
     <> trace first ++ trace after
  /\ trace (scanTransactions Demo.node Demo.demoAdapter a [d1; d2] w) = trace first.
Proof.
  cbv zeta. split; [reflexivity|]. split; [|reflexivity].
  intros H. vm_compute in H. discriminate.
Qed.

Lemma handleBlock_returns_at_refused_event_witness :
  let w := Demo.setEventPoolRefuses Demo.calm in
  let ev := eventFor (Demo.deposit 1000%Z 11%N)
              {| TxMethod := "deposit"; TxValue := 1000 |}
              {| Demo.db_nonce := 0%N; Demo.db_pending := Ok Demo.bytes500 |}
              (Some {| md_TxHash := 11%N; md_Target := "KAI" |}) in
  handleBlock Demo.node (Some Demo.block1) w
  = (Ret tt, w,
     [Log Info "handleBlock...";
      Log Info "New Eth's tx detected on smart contract";
      QueryTxMetadata (TriggeredEvent ev);
      Log Info "Create DualEvent for Eth's Tx";
      AddEvent ev; Log Error_ "Fail to add dual's event"]).
Proof.
  cbv zeta.
  apply (@handleBlock_returns_at_refused_event Demo.demo Demo.node Demo.demoAdapter
           Demo.block1 [] [Demo.elsewhere 5%Z 12%N; Demo.deposit 7%Z 13%N]
           (Demo.deposit 1000%Z 11%N)
           (Demo.setEventPoolRefuses Demo.calm) (Demo.setEventPoolRefuses Demo.calm) []
           {| TxMethod := "deposit"; TxValue := 1000 |}
           {| Demo.db_nonce := 0%N; Demo.db_pending := Ok Demo.bytes500 |});
    try reflexivity.
  discriminate.
Defined.

Lemma blockCh_keeps_buffered_block_witness :
  Sync.blockCh Demo.busy = [Some Demo.block1]
  /\ Sync.step false Sync.Listen Demo.busy
     = Some {| Sync.chainHeadEventCh := []; Sync.blockCh := [Some Demo.block1];
               Sync.listening := true; Sync.delivered := []; Sync.handled := [] |}.
Proof.
  split; [reflexivity|].
  apply (proj1 (blockCh_keeps_buffered_block false Demo.busy
                  (b := Some Demo.block1) eq_refl) (Some Demo.block2) []);
    reflexivity.
Defined.

(** C6 as stated fails: with no internal chain registered a nil block ends
    in a panic. *)
Lemma handleBlock_nil_block_panics_unregistered :
  outcome (handleBlock Demo.unregistered None Demo.calm)
  = Panic "Internal chain needs not to be nil."
  /\ outcome (handleBlock Demo.unregistered None Demo.calm) <> Ret tt
  /\ logRecords (trace (handleBlock Demo.unregistered None Demo.calm)) = [].
Proof.
  split; [reflexivity|]. split; [discriminate | reflexivity].
Qed.

Lemma handleBlock_nil_block_witness :
  internalChain Demo.node = Some Demo.demoAdapter
  /\ handleBlock Demo.node None Demo.calm
     = (Ret tt, Demo.calm, [Log Info "handleBlock with nil block"]).
Proof.
  split; [reflexivity|].
  apply (proj1 (handleBlock_nil_block Demo.node Demo.calm
                  (ic := Demo.demoAdapter) eq_refl)).
Defined.


Lemma SubmitTx_failed_build_panics_witness :
  let w := Demo.setSignerNonce Demo.calm 0%N in
  bc_State (kardiaChain Demo.node) w = Ok Demo.calmState
  /\ eth_State (geth Demo.node) w = Ok 0%N
  /\ fst (eth_AddLocal (geth Demo.node) None w) = None
  /\ outcome (SubmitTx Demo.node Demo.trigger w)
     = Panic "invalid memory address or nil pointer dereference".
Proof.
  cbv zeta. split; [reflexivity|]. split; [reflexivity|]. split; [reflexivity|].
  apply (SubmitTx_failed_build_panics Demo.node Demo.trigger
           (Demo.setSignerNonce Demo.calm 0%N)
           (statedb := Demo.calmState) (v := 500%Z) (ethdb := 0%N));
    try reflexivity.
  discriminate.
Defined.

Lemma pending_read_failure_reads_zero_witness :
  let w := Demo.setPendingRet Demo.calm (Err "execution reverted") in
  let statedb := {| Demo.db_nonce := 0%N; Demo.db_pending := Err "execution reverted" |} in
  bc_State (kardiaChain Demo.node) w = Ok statedb
  /\ pendingReadFails Demo.node sender statedb = true
  /\ outcome (callKardiaMasterGetEthToSend Demo.node sender statedb w) = Ret 0%Z
  /\ outcome (SubmitTx Demo.node Demo.trigger w) = Ret None.
Proof.
  cbv zeta. split; [reflexivity|]. split; [reflexivity|].
  pose proof (pending_read_failure_reads_zero Demo.node Demo.trigger
                (Demo.setPendingRet Demo.calm (Err "execution reverted"))
                (statedb := {| Demo.db_nonce := 0%N;
                               Demo.db_pending := Err "execution reverted" |})
                eq_refl eq_refl) as H.
  cbv zeta in H. destruct H as (H1 & H2 & _). split; assumption.
Defined.

Lemma handleBlock_unregistered_panics_witness :
  internalChain Demo.unregistered = None
  /\ handleBlock Demo.unregistered (Some Demo.block1) Demo.calm
     = (Panic "Internal chain needs not to be nil.", Demo.calm, []).
Proof.
  split; [reflexivity|].
  apply (handleBlock_unregistered_panics Demo.unregistered (Some Demo.block1) Demo.calm).
  reflexivity.
Defined.

(** * More runs on the concrete world *)

Lemma ComputeTxMetadata_names_the_release_witness :
  bc_State (kardiaChain Demo.node) Demo.calm = Ok Demo.calmState
  /\ eth_State (geth Demo.node) Demo.calm = Ok 7%N
  /\ ethSubmissions (trace (SubmitTx Demo.node Demo.trigger Demo.calm))
     = [Some (releaseTx Demo.node 500%Z 7%N)]
  /\ outcome (ComputeTxMetadata Demo.node DemoMore.release500 Demo.calm)
     = Ret (Some {| md_TxHash := 7%N; md_Target := "ETH" |}).
Proof.
  split; [reflexivity|]. split; [reflexivity|].
  destruct (@ComputeTxMetadata_names_the_release Demo.demo Demo.node
              DemoMore.release500 Demo.trigger Demo.calm Demo.calmState 7%N
              eq_refl eq_refl ltac:(discriminate) eq_refl ltac:(discriminate))
    as (tx & H1 & H2).
  split; [reflexivity|]. rewrite H2.
  vm_compute in H1. injection H1 as <-. reflexivity.
Defined.

Lemma handleBlock_panics_only_on_decode_failure_witness :
  internalChain Demo.node = Some Demo.demoAdapter
  /\ outcome (handleBlock Demo.node (Some DemoMore.block3) Demo.calm)
     = Panic "Not yet implemented!"
  /\ exists tx, In tx (Transactions DemoMore.block3)
                /\ summaryOf Demo.node tx = None.
Proof.
  split; [reflexivity|].
  destruct (@handleBlock_panics_only_on_decode_failure Demo.demo Demo.node
              Demo.demoAdapter (Some DemoMore.block3) Demo.calm eq_refl)
    as [H|(H & b & tx & Hb & Hin & _ & Hn)].
  - vm_compute in H. discriminate.
  - split; [exact H|]. injection Hb as <-. exists tx. split; assumption.
Defined.

Lemma handleBlock_nothing_addressed_witness :
  internalChain Demo.node = Some Demo.demoAdapter
  /\ handleBlock Demo.node (Some DemoMore.block5) Demo.calm
     = (Ret tt, Demo.calm, [Log Info "handleBlock..."]).
Proof.
  split; [reflexivity|].
  apply (@handleBlock_nothing_addressed Demo.demo Demo.node Demo.demoAdapter
           DemoMore.block5 Demo.calm); reflexivity.
Defined.

Lemma handleBlock_panics_at_undecodable_input_witness :
  addressedTo 8%N (DemoMore.malformed 33%N) = true
  /\ summaryOf Demo.node (DemoMore.malformed 33%N) = None
  /\ handleBlock Demo.node (Some DemoMore.block3) Demo.calm
     = (Panic "Not yet implemented!", Demo.calm,
        [Log Info "handleBlock...";
         Log Info "New Eth's tx detected on smart contract";
         Log Error_ "Error when unpack Eth smc input";
         Log Error_ "Error when extracting Eth's tx summary."]).
Proof.
  split; [reflexivity|]. split; [reflexivity|].
  apply (@handleBlock_panics_at_undecodable_input Demo.demo Demo.node Demo.demoAdapter
           DemoMore.block3 [Demo.elsewhere 5%Z 31%N] [Demo.deposit 2%Z 34%N]
           (DemoMore.malformed 33%N) Demo.calm Demo.calm []);
    reflexivity.
Defined.

Lemma handleBlock_returns_at_dual_state_failure_witness :
  dual_State (dualChain Demo.node) DemoMore.noDualState = Err "no dual state"
  /\ handleBlock Demo.node (Some DemoMore.block4) DemoMore.noDualState
     = (Ret tt, DemoMore.noDualState,
        [Log Info "handleBlock...";
         Log Info "New Eth's tx detected on smart contract";
         Log Error_ "Fail to get Kardia state"]).
Proof.
  split; [reflexivity|].
  apply (@handleBlock_returns_at_dual_state_failure Demo.demo Demo.node
           Demo.demoAdapter DemoMore.block4 [Demo.elsewhere 5%Z 41%N]
           [Demo.deposit 4%Z 43%N] (Demo.deposit 3%Z 42%N)
           DemoMore.noDualState DemoMore.noDualState []
           {| TxMethod := "deposit"; TxValue := 3 |} "no dual state");
    reflexivity.
Defined.


Lemma delivered_blocks_were_put_in_witness :
  Sync.run false DemoMore.schedule Sync.init = Some DemoMore.afterSchedule
  /\ incl (Sync.delivered DemoMore.afterSchedule)
          (fedHeads DemoMore.schedule ++ generatedBlocks DemoMore.schedule).
Proof.
  split; [reflexivity|].
  apply (proj1 (delivered_blocks_were_put_in false DemoMore.schedule
                  (s1 := DemoMore.afterSchedule) eq_refl)).
Defined.

Lemma handled_follows_delivered_witness :
  Sync.run false DemoMore.schedule Sync.init = Some DemoMore.afterSchedule
  /\ Sync.handled DemoMore.afterSchedule = Sync.delivered DemoMore.afterSchedule.
Proof.
  split; [reflexivity|].
  apply (handled_follows_delivered false DemoMore.schedule
           (s1 := DemoMore.afterSchedule) eq_refl).
Defined.


Lemma generated_blocks_are_never_dropped_witness :
  Sync.run false DemoMore.schedule Sync.init = Some DemoMore.afterSchedule
  /\ incl (generatedBlocks DemoMore.schedule)
          (Sync.delivered DemoMore.afterSchedule ++ Sync.blockCh DemoMore.afterSchedule).
Proof.
  split; [reflexivity|].
  apply (@generated_blocks_are_never_dropped false DemoMore.schedule
           Sync.init DemoMore.afterSchedule eq_refl).
Defined.

Lemma mockBlockGenerationRoutine_one_pass_witness :
  RepeatInfinitely DemoMore.once = false
  /\ snd (mockBlockGenerationRoutine 1 Demo.node DemoMore.once) = true
  /\ sleeps (fst (mockBlockGenerationRoutine 1 Demo.node DemoMore.once))
     = [0%Z; 1%Z; 2%Z].
Proof.
  split; [reflexivity|].
  pose proof (@mockBlockGenerationRoutine_one_pass Demo.demo 0 Demo.node
                DemoMore.once eq_refl) as H.
  cbv zeta in H. destruct H as (H1 & _ & H3). split; [exact H1 | exact H3].
Defined.

Lemma mockBlockGenerationRoutine_repeats_witness :
  RepeatInfinitely DemoMore.forever = true
  /\ snd (mockBlockGenerationRoutine 4 Demo.node DemoMore.forever) = false
  /\ List.length (sentBlocks (fst (mockBlockGenerationRoutine 4 Demo.node DemoMore.forever)))
     = 12%nat.
Proof.
  split; [reflexivity|].
  pose proof (@mockBlockGenerationRoutine_repeats Demo.demo 4 Demo.node
                DemoMore.forever eq_refl) as H.
  cbv zeta in H. destruct H as (H1 & H2). split; [exact H1|].
  rewrite H2. reflexivity.
Defined.

Lemma cache_shares_witness :
  (0 <= 1023 <= 28633115)%Z
  /\ (DatabaseCache 1023 + TrieCache 1023 = 1022)%Z.
Proof.
  split; [lia|].
  apply (proj2 (proj2 (@cache_shares 1023%Z ltac:(lia)))).
Defined.
